(** * terraform-provider-tfe: team access and notification configuration

    A shallow embedding of
      - tfe/resource_tfe_team_access.go
      - tfe/resource_tfe_notification_configuration.go
    and the properties of the access-mode reconciler
    [setCustomOrComputedPermissions] and of the error handling of the
    CRUD operations of both resources.

    The plugin SDK (schema.ResourceDiff, schema.ResourceData) and the API
    client (go-tfe) are collaborators of the provider.  The diff context
    is an interface, [DiffContext]; the client is a record of response
    functions, [Client]. *)

From stdpp Require Import base strings gmap list.

Local Open Scope string_scope.

(** ** Go values *)

(** Go's [error] interface.  The client returns the sentinel
    [tfe.ErrResourceNotFound], which the provider compares by identity;
    every other error value ([errors.New], [fmt.Errorf], client
    failures) is an [errorString].  A nil error is [None : option error]. *)
Inductive error : Type :=
| ErrResourceNotFound
| errorString (msg : string).

(** [err.Error()], what the verb %v prints.  The text of the sentinel is
    the one go-tfe gives it. *)
Definition Error (e : error) : string :=
  match e with
  | ErrResourceNotFound => "resource not found"
  | errorString msg => msg
  end.

(** [fmt.Errorf] with its format already expanded. *)
Definition Errorf (msg : string) : error := errorString msg.

(** [err == tfe.ErrResourceNotFound] *)
Definition isErrResourceNotFound (e : error) : bool :=
  match e with
  | ErrResourceNotFound => true
  | errorString _ => false
  end.

(** A Go call returning [(x, err)]. *)
Inductive result (A : Type) : Type :=
| Ok (a : A)
| Err (e : error).
Arguments Ok {A} a.
Arguments Err {A} e.

(** A Go call that either returns or panics (a failed type assertion). *)
Inductive outcome (A : Type) : Type :=
| Returned (a : A)
| Panicked.
Arguments Returned {A} a.
Arguments Panicked {A}.

(** The element of the "permissions" list: a map with five keys. *)
Record Permissions : Type := mkPermissions {
  runs : string;
  variables : string;
  state_versions : string;
  sentinel_mocks : string;
  workspace_locking : bool;
}.

(** [interface{}] as the two resources use it.  A [*schema.Set] of
    strings is the set of its elements: it holds each element once and
    keeps no order of insertion. *)
Inductive value : Type :=
| VNil
| VString (s : string)
| VBool (b : bool)
| VSet (s : gset string)
| VMap (p : Permissions)
| VList (l : list Permissions).

#[global] Instance Permissions_eq_dec : EqDecision Permissions.
Proof. solve_decision. Defined.

#[global] Instance value_eq_dec : EqDecision value.
Proof. solve_decision. Defined.

#[global] Instance error_eq_dec : EqDecision error.
Proof. solve_decision. Defined.

(** [reflect.DeepEqual] *)
Definition DeepEqual (a b : value) : bool := bool_decide (a = b).

(** [strings.Contains s sub], used to state what a message mentions. *)
Fixpoint contains (sub s : string) : bool :=
  String.prefix sub s ||
  match s with
  | EmptyString => false
  | String _ s' => contains sub s'
  end.

(** go-tfe constants. *)
Definition AccessCustom : string := "custom".
Definition NotificationDestinationTypeSlack : string := "slack".

(** ** The diff context

    What [setCustomOrComputedPermissions] asks of *schema.ResourceDiff.
    The two mutators change the diff in place and return an error. *)
Class DiffContext (D : Type) : Type := {
  GetOk : D → string → value * bool;
  HasChange : D → string → bool;
  GetChange : D → string → value * value;
  SetNewComputed : D → string → D * option error;
  SetNew : D → string → value → D * option error;
}.

(** ** setCustomOrComputedPermissions (resource_tfe_team_access.go)

    The function returns the diff as the mutators left it and the Go
    return value.  The errors of [SetNewComputed] and [SetNew] are
    dropped, as in the source; [n.(string)] panics on anything but a
    string. *)
Definition setCustomOrComputedPermissions {D : Type} `{DiffContext D}
    (d : D) : outcome (D * option error) :=
  let '(_, ok) := GetOk d "access" in
  if ok then
    if HasChange d "access" then
      let '(_, n) := GetChange d "access" in
      match n with
      | VString new =>
          if negb (new =? "custom") then
            let '(d1, _) := SetNewComputed d "permissions" in
            Returned (d1, None)
          else Returned (d, None)
      | _ => Panicked
      end
    else
      if HasChange d "permissions.0" then
        let '(d1, _) := SetNew d "access" (VString AccessCustom) in
        Returned (d1, None)
      else Returned (d, None)
  else
    let '(_, ok) := GetOk d "permissions" in
    if ok then
      let '(d1, _) := SetNew d "access" (VString AccessCustom) in
      Returned (d1, None)
    else Returned (d, None).

(** *** The decision taken

    A diff context that also records the mutations made on it.  Running
    the reconciler on it, started with an empty record, gives the
    decision: which field was marked computed, which was overridden. *)
Inductive mutation : Type :=
| MarkComputed (key : string)
| Override (key : string) (v : value).

#[global] Instance mutation_eq_dec : EqDecision mutation.
Proof. solve_decision. Defined.

#[global] Instance Recording (D : Type) `{DiffContext D}
  : DiffContext (D * list mutation) := {
  GetOk dl key := GetOk dl.1 key;
  HasChange dl key := HasChange dl.1 key;
  GetChange dl key := GetChange dl.1 key;
  SetNewComputed dl key :=
    let '(d1, e) := SetNewComputed dl.1 key in
    ((d1, (dl.2 ++ [MarkComputed key])%list), e);
  SetNew dl key v :=
    let '(d1, e) := SetNew dl.1 key v in
    ((d1, (dl.2 ++ [Override key v])%list), e);
}.

Definition decision {D : Type} `{DiffContext D} (d : D)
  : outcome (list mutation) :=
  match setCustomOrComputedPermissions (d, @nil mutation) with
  | Returned (dl, _) => Returned dl.2
  | Panicked => Panicked
  end.

(** What the reconciler reads of the diff: is access set, did it change,
    its proposed value, did the permissions block change, is a
    permissions block present. *)
Definition observation {D : Type} `{DiffContext D} (d : D)
  : bool * bool * value * bool * bool :=
  ((GetOk d "access").2, HasChange d "access", (GetChange d "access").2,
   HasChange d "permissions.0", (GetOk d "permissions").2).

(** The decision table of the design, on the observed tuple: whether
    permissions are forced to be recomputed, and the value access is
    overridden with.  [permissionsPresent] is the "a permissions block
    is present" of the third row. *)
Definition Reconcile (hasAccessSet accessChanged : bool)
    (accessOld accessNew : string)
    (permissionsChanged permissionsPresent : bool) : bool * option string :=
  if hasAccessSet then
    if accessChanged then
      if negb (accessNew =? "custom") then (true, None) else (false, None)
    else
      if permissionsChanged then (false, Some "custom") else (false, None)
  else
    if permissionsPresent then (false, Some "custom") else (false, None).

(** The mutations a decision of the table stands for. *)
Definition mutations_of (r : bool * option string) : list mutation :=
  ((if r.1 then [MarkComputed "permissions"] else []) ++
   match r.2 with
   | Some v => [Override "access" (VString v)]
   | None => []
   end)%list.

(** ** A diff context for the team access resource

    Modelled from the spec: the configuration-diff context
    (schema.ResourceDiff of the plugin SDK, which is not part of this
    repository): read access to the old and the proposed value of
    "access" and of the "permissions" list (at most one block), the
    change flags, and the two mutations "mark a field as
    server-computed" and "override the proposed value of a field".  As
    in the SDK, [GetOk] reports a field that is computed or holds its
    zero value as not set, [HasChange] compares old and new with
    [reflect.DeepEqual], and the mutators refuse a key that the schema
    does not declare Computed. *)
Record ResourceDiff : Type := mkResourceDiff {
  oldAccess : string;
  newAccess : string;
  oldPermissions : list Permissions;
  newPermissions : list Permissions;
  newComputed : gset string;
}.

Definition isZero (v : value) : bool :=
  match v with
  | VNil => true
  | VString s => s =? ""
  | VBool b => negb b
  | VSet s => bool_decide (s = ∅)
  | VMap _ => false
  | VList l => bool_decide (l = [])
  end.

Definition element0 (l : list Permissions) : value :=
  match l with
  | p :: _ => VMap p
  | [] => VNil
  end.

Definition diffOld (d : ResourceDiff) (key : string) : value :=
  if key =? "access" then VString (oldAccess d)
  else if key =? "permissions" then VList (oldPermissions d)
  else if key =? "permissions.0" then element0 (oldPermissions d)
  else VNil.

Definition diffNew (d : ResourceDiff) (key : string) : value :=
  if key =? "access" then VString (newAccess d)
  else if key =? "permissions" then VList (newPermissions d)
  else if key =? "permissions.0" then element0 (newPermissions d)
  else VNil.

Definition isComputed (d : ResourceDiff) (key : string) : bool :=
  bool_decide (key ∈ newComputed d).

(** The keys [SetNew] and [SetNewComputed] accept: the top-level
    attributes of [resourceTFETeamAccess] declared [Computed: true]. *)
Definition computedKey (key : string) : bool :=
  (key =? "access") || (key =? "permissions").

Definition diffGetOk (d : ResourceDiff) (key : string) : value * bool :=
  (diffNew d key, negb (isComputed d key) && negb (isZero (diffNew d key))).

Definition diffGetChange (d : ResourceDiff) (key : string) : value * value :=
  (diffOld d key, diffNew d key).

Definition diffHasChange (d : ResourceDiff) (key : string) : bool :=
  negb (DeepEqual (diffOld d key) (diffNew d key)).

Definition diffSetNewComputed (d : ResourceDiff) (key : string)
  : ResourceDiff * option error :=
  if computedKey key then
    ({| oldAccess := oldAccess d; newAccess := newAccess d;
        oldPermissions := oldPermissions d;
        newPermissions := newPermissions d;
        newComputed := {[ key ]} ∪ newComputed d |}, None)
  else
    (d, Some (Errorf ("SetNewComputed only operates on computed keys - "
                      +:+ key +:+ " is not one"))).

Definition diffSetNew (d : ResourceDiff) (key : string) (v : value)
  : ResourceDiff * option error :=
  if key =? "access" then
    match v with
    | VString s =>
        ({| oldAccess := oldAccess d; newAccess := s;
            oldPermissions := oldPermissions d;
            newPermissions := newPermissions d;
            newComputed := newComputed d ∖ {[ key ]} |}, None)
    | _ => (d, Some (Errorf (key +:+ ": a string is expected")))
    end
  else if key =? "permissions" then
    match v with
    | VList l =>
        ({| oldAccess := oldAccess d; newAccess := newAccess d;
            oldPermissions := oldPermissions d;
            newPermissions := l;
            newComputed := newComputed d ∖ {[ key ]} |}, None)
    | _ => (d, Some (Errorf (key +:+ ": a list is expected")))
    end
  else
    (d, Some (Errorf ("SetNew only operates on computed keys - "
                      +:+ key +:+ " is not one"))).

#[global] Instance ResourceDiff_context : DiffContext ResourceDiff := {
  GetOk := diffGetOk;
  HasChange := diffHasChange;
  GetChange := diffGetChange;
  SetNewComputed := diffSetNewComputed;
  SetNew := diffSetNew;
}.

(** The reconciled diff, when the reconciler returns. *)
Definition reconciled (d : ResourceDiff) : option ResourceDiff :=
  match setCustomOrComputedPermissions d with
  | Returned (d', _) => Some d'
  | Panicked => None
  end.

(** *** The two modes of the data model *)

(** A permission field is explicit when it is not the zero value. *)
Definition hasExplicitField (p : Permissions) : bool :=
  negb (runs p =? "") || negb (variables p =? "") ||
  negb (state_versions p =? "") || negb (sentinel_mocks p =? "") ||
  workspace_locking p.

(** The access level is a concrete value other than "custom" and the
    permission set is computed by the server. *)
Definition fixedLevel (d : ResourceDiff) : bool :=
  (diffGetOk d "access").2 && negb (newAccess d =? "custom") &&
  isComputed d "permissions".

(** The access level is set to "custom" and the permission set, which
    is not left to the server to compute, holds at least one explicit
    field. *)
Definition customLevel (d : ResourceDiff) : bool :=
  (diffGetOk d "access").2 && (newAccess d =? "custom") &&
  negb (isComputed d "permissions") &&
  match newPermissions d with
  | p :: _ => hasExplicitField p
  | [] => false
  end.

(** Exactly one of the two modes holds. *)
Definition exactlyOneMode (d : ResourceDiff) : bool :=
  xorb (fixedLevel d) (customLevel d).

(** ** schema.ResourceData

    The resource data the CRUD functions receive: the ID, the attributes
    of the prior state and the attributes as planned or set so far.  The
    "permissions" attribute is a list of at most one block and its
    fields are addressed as "permissions.0.<field>". *)
Module ResourceData.

Record t : Type := mk {
  id : string;
  state : gmap string value;
  attrs : gmap string value;
}.

Definition permissionsField (p : Permissions) (field : string) : value :=
  if field =? "runs" then VString (runs p)
  else if field =? "variables" then VString (variables p)
  else if field =? "state_versions" then VString (state_versions p)
  else if field =? "sentinel_mocks" then VString (sentinel_mocks p)
  else if field =? "workspace_locking" then VBool (workspace_locking p)
  else VNil.

(** Reads an address in a set of attributes. *)
Definition lookupAttr (m : gmap string value) (key : string)
  : option value :=
  if String.prefix "permissions.0." key then
    match m !! "permissions" with
    | Some (VList (p :: _)) =>
        match permissionsField p
                (String.substring 14 (String.length key - 14) key) with
        | VNil => None
        | v => Some v
        end
    | _ => None
    end
  else m !! key.

(** [d.Id()] *)
Definition Id (d : t) : string := id d.

(** [d.SetId(v)] *)
Definition SetId (d : t) (v : string) : t :=
  {| id := v; state := state d; attrs := attrs d |}.

(** [d.Get(key).(string)] of a TypeString attribute: the schema fixes
    the dynamic type, and an attribute that is not set reads as the
    zero value. *)
Definition GetString (d : t) (key : string) : string :=
  match lookupAttr (attrs d) key with
  | Some (VString s) => s
  | _ => ""
  end.

(** [d.Get(key).(bool)] of a TypeBool attribute. *)
Definition GetBool (d : t) (key : string) : bool :=
  match lookupAttr (attrs d) key with
  | Some (VBool b) => b
  | _ => false
  end.

(** [d.Get(key).( *schema.Set).List()] of a set of strings: the
    elements of the set, each once.  The SDK lists them by hash code;
    the model lists them in an order that, likewise, depends on the set
    alone, and nothing below relies on which order it is. *)
Definition GetSetList (d : t) (key : string) : list string :=
  match lookupAttr (attrs d) key with
  | Some (VSet s) => elements s
  | _ => []
  end.

(** [d.GetOk(key)]: the value, and whether it is set to something
    other than the zero value.  The callers use the value only when
    the flag is true. *)
Definition GetOk (d : t) (key : string) : value * bool :=
  match lookupAttr (attrs d) key with
  | Some v => (v, negb (isZero v))
  | None => (VNil, false)
  end.

(** [d.GetOkExists(key)]: the value, and whether it is set at all. *)
Definition GetOkExists (d : t) (key : string) : value * bool :=
  match lookupAttr (attrs d) key with
  | Some v => (v, true)
  | None => (VNil, false)
  end.

(** An attribute that is not set and one set to the zero value are
    the same value for [Get]. *)
Definition normal (o : option value) : value :=
  match o with
  | Some v => if isZero v then VNil else v
  | None => VNil
  end.

(** [d.HasChange(key)] *)
Definition HasChange (d : t) (key : string) : bool :=
  negb (DeepEqual (normal (lookupAttr (state d) key))
                  (normal (lookupAttr (attrs d) key))).

(** [d.Set(key, v)].  It reports an error only for a value that does
    not fit the schema of the attribute; the values the two resources
    write are those of the schema. *)
Definition Set_ (d : t) (key : string) (v : value) : t * option error :=
  ({| id := id d; state := state d; attrs := <[ key := v ]> (attrs d) |},
   None).

(** [v.(string)], [v.(bool)] on a value of that type. *)
Definition asString (v : value) : string :=
  match v with VString s => s | _ => "" end.
Definition asBool (v : value) : bool :=
  match v with VBool b => b | _ => false end.

End ResourceData.

(** ** The API client (go-tfe) *)

Record Workspace : Type := mkWorkspace {
  ws_ID : string;
  ws_Name : string;
}.

Record Team : Type := mkTeam {
  tm_ID : string;
  tm_Name : string;
}.

Record TeamAccess : Type := mkTeamAccess {
  ta_ID : string;
  ta_Access : string;
  ta_Runs : string;
  ta_Variables : string;
  ta_StateVersions : string;
  ta_SentinelMocks : string;
  ta_WorkspaceLocking : bool;
  ta_Team : option Team;
}.

(** Pointer fields of the option structs are [option]s; nil is [None]. *)
Record TeamAccessAddOptions : Type := mkTeamAccessAddOptions {
  add_Access : option string;
  add_Runs : option string;
  add_Variables : option string;
  add_StateVersions : option string;
  add_SentinelMocks : option string;
  add_WorkspaceLocking : option bool;
  add_Team : Team;
  add_Workspace : Workspace;
}.

Record TeamAccessUpdateOptions : Type := mkTeamAccessUpdateOptions {
  upd_Access : option string;
  upd_Runs : option string;
  upd_Variables : option string;
  upd_StateVersions : option string;
  upd_SentinelMocks : option string;
  upd_WorkspaceLocking : option bool;
}.

Record NotificationConfiguration : Type := mkNotificationConfiguration {
  nc_ID : string;
  nc_DestinationType : string;
  nc_Enabled : bool;
  nc_Name : string;
  nc_Triggers : list string;
  nc_URL : string;
  nc_SubscribableID : string;
}.

Record NotificationConfigurationCreateOptions : Type :=
  mkNotificationConfigurationCreateOptions {
  nco_DestinationType : option string;
  nco_Enabled : option bool;
  nco_Name : option string;
  nco_Token : option string;
  nco_URL : option string;
  nco_Triggers : list string;
}.

Record NotificationConfigurationUpdateOptions : Type :=
  mkNotificationConfigurationUpdateOptions {
  ncu_Enabled : option bool;
  ncu_Name : option string;
  ncu_Token : option string;
  ncu_URL : option string;
  ncu_Triggers : list string;
}.

(** The answers of the remote API, one function per client method the
    two resources call. *)
Record Client : Type := mkClient {
  Workspaces_ReadByID : string → result Workspace;
  Teams_Read : string → result Team;
  TeamAccess_Add : TeamAccessAddOptions → result TeamAccess;
  TeamAccess_Read : string → result TeamAccess;
  TeamAccess_Update : string → TeamAccessUpdateOptions → result TeamAccess;
  TeamAccess_Remove : string → option error;
  NotificationConfigurations_Create :
    string → NotificationConfigurationCreateOptions →
    result NotificationConfiguration;
  NotificationConfigurations_Read : string → result NotificationConfiguration;
  NotificationConfigurations_Update :
    string → NotificationConfigurationUpdateOptions →
    result NotificationConfiguration;
  NotificationConfigurations_Delete : string → option error;
}.

(** A request made against the API. *)
Inductive Call : Type :=
| CallWorkspacesReadByID (workspaceID : string)
| CallTeamsRead (teamID : string)
| CallTeamAccessAdd (options : TeamAccessAddOptions)
| CallTeamAccessRead (teamAccessID : string)
| CallTeamAccessUpdate (teamAccessID : string)
    (options : TeamAccessUpdateOptions)
| CallTeamAccessRemove (teamAccessID : string)
| CallNotificationConfigurationsCreate (workspaceID : string)
    (options : NotificationConfigurationCreateOptions)
| CallNotificationConfigurationsRead (id : string)
| CallNotificationConfigurationsUpdate (id : string)
    (options : NotificationConfigurationUpdateOptions)
| CallNotificationConfigurationsDelete (id : string).

(** ** The state a CRUD function works on

    The resource data it was handed (by reference), the requests made
    against the API so far, and the log. *)
Record World : Type := mkWorld {
  data : ResourceData.t;
  calls : list Call;
  logs : list string;
}.

(** A Go function [func(d, meta) error] is an [Op unit]: [Ok tt] is the
    nil error, and [Err e] returns [e] on the spot. *)
Definition Op (A : Type) : Type := World → result A * World.

#[global] Instance Op_ret : MRet Op := λ A a w, (Ok a, w).

#[global] Instance Op_bind : MBind Op := λ A B f m w,
  match m w with
  | (Ok a, w') => f a w'
  | (Err e, w') => (Err e, w')
  end.

(** [return err] *)
Definition fail {A : Type} (e : error) : Op A := λ w, (Err e, w).

(** Reads through the pointer [d]. *)
Definition getData : Op ResourceData.t := λ w, (Ok (data w), w).

(** [log.Printf] with its format already expanded. *)
Definition Printf (line : string) : Op unit := λ w,
  (Ok tt, {| data := data w; calls := calls w;
             logs := (logs w ++ [line])%list |}).

(** [d.SetId(v)] *)
Definition SetId (v : string) : Op unit := λ w,
  (Ok tt, {| data := ResourceData.SetId (data w) v; calls := calls w;
             logs := logs w |}).

(** [d.Set(key, v)]; the result is the error [d.Set] returns. *)
Definition Set_ (key : string) (v : value) : Op (option error) := λ w,
  let '(d', e) := ResourceData.Set_ (data w) key v in
  (Ok e, {| data := d'; calls := calls w; logs := logs w |}).

(** A client method: the request is made and the answer handed back. *)
Definition request {A : Type} (c : Call) (answer : A) : Op A := λ w,
  (Ok answer, {| data := data w; calls := (calls w ++ [c])%list;
                 logs := logs w |}).

(** ** resource_tfe_team_access.go *)

(** The options struct of [resourceTFETeamAccessCreate], with the
    fields of the permissions block that are not empty. *)
Definition teamAccessAddOptions (d : ResourceData.t) (access : string)
    (tm : Team) (ws : Workspace) : TeamAccessAddOptions :=
  match ResourceData.GetOk d "permissions" with
  | (VList (permissions :: _), true) =>
      {| add_Access := Some access;
         add_Runs :=
           if negb (runs permissions =? "")
           then Some (runs permissions) else None;
         add_Variables :=
           if negb (variables permissions =? "")
           then Some (variables permissions) else None;
         add_StateVersions :=
           if negb (state_versions permissions =? "")
           then Some (state_versions permissions) else None;
         add_SentinelMocks :=
           if negb (sentinel_mocks permissions =? "")
           then Some (sentinel_mocks permissions) else None;
         add_WorkspaceLocking := Some (workspace_locking permissions);
         add_Team := tm;
         add_Workspace := ws |}
  | _ =>
      {| add_Access := Some access;
         add_Runs := None; add_Variables := None;
         add_StateVersions := None; add_SentinelMocks := None;
         add_WorkspaceLocking := None;
         add_Team := tm;
         add_Workspace := ws |}
  end.

(** [if d.HasChange(key) { if v, ok := d.GetOk(key); ok { ... v ... } }] *)
Definition changedAndSet (d : ResourceData.t) (key : string)
  : option value :=
  if ResourceData.HasChange d key then
    match ResourceData.GetOk d key with
    | (v, true) => Some v
    | (_, false) => None
    end
  else None.

(** The same with [d.GetOkExists]. *)
Definition changedAndExists (d : ResourceData.t) (key : string)
  : option value :=
  if ResourceData.HasChange d key then
    match ResourceData.GetOkExists d key with
    | (v, true) => Some v
    | (_, false) => None
    end
  else None.

(** The options struct of [resourceTFETeamAccessUpdate]. *)
Definition teamAccessUpdateOptions (d : ResourceData.t)
  : TeamAccessUpdateOptions :=
  let access := ResourceData.GetString d "access" in
  {| upd_Access := Some access;
     upd_Runs :=
       ResourceData.asString <$> changedAndSet d "permissions.0.runs";
     upd_Variables :=
       ResourceData.asString <$> changedAndSet d "permissions.0.variables";
     upd_StateVersions :=
       ResourceData.asString <$>
         changedAndSet d "permissions.0.state_versions";
     upd_SentinelMocks :=
       ResourceData.asString <$>
         changedAndSet d "permissions.0.sentinel_mocks";
     upd_WorkspaceLocking :=
       ResourceData.asBool <$>
         changedAndExists d "permissions.0.workspace_locking" |}.

(** The permissions block written back from the API's answer. *)
Definition permissionsOf (tmAccess : TeamAccess) : list Permissions :=
  [ {| runs := ta_Runs tmAccess;
       variables := ta_Variables tmAccess;
       state_versions := ta_StateVersions tmAccess;
       sentinel_mocks := ta_SentinelMocks tmAccess;
       workspace_locking := ta_WorkspaceLocking tmAccess |} ].

Definition resourceTFETeamAccessRead (tfeClient : Client) : Op unit :=
  d ← getData;
  Printf ("[DEBUG] Read configuration of team access: "
          +:+ ResourceData.Id d);;
  r ← request (CallTeamAccessRead (ResourceData.Id d))
        (TeamAccess_Read tfeClient (ResourceData.Id d));
  match r with
  | Err err =>
      if isErrResourceNotFound err then
        Printf ("[DEBUG] Team access " +:+ ResourceData.Id d
                +:+ " does no longer exist");;
        SetId "";;
        mret tt
      else
        fail (Errorf ("Error reading configuration of team access "
                      +:+ ResourceData.Id d +:+ ": " +:+ Error err))
  | Ok tmAccess =>
      Set_ "access" (VString (ta_Access tmAccess));;
      e ← Set_ "permissions" (VList (permissionsOf tmAccess));
      match e with
      | Some err =>
          fail (Errorf ("error setting permissions for team access "
                        +:+ ResourceData.Id d +:+ ": " +:+ Error err))
      | None =>
          match ta_Team tmAccess with
          | Some team => Set_ "team_id" (VString (tm_ID team))
          | None => Set_ "team_id" (VString "")
          end;;
          mret tt
      end
  end.

Definition resourceTFETeamAccessCreate (tfeClient : Client) : Op unit :=
  d ← getData;
  let access := ResourceData.GetString d "access" in
  let workspaceID := ResourceData.GetString d "workspace_id" in
  r ← request (CallWorkspacesReadByID workspaceID)
        (Workspaces_ReadByID tfeClient workspaceID);
  match r with
  | Err err =>
      fail (Errorf ("Error retrieving workspace " +:+ workspaceID
                    +:+ ": " +:+ Error err))
  | Ok ws =>
      let teamID := ResourceData.GetString d "team_id" in
      r ← request (CallTeamsRead teamID) (Teams_Read tfeClient teamID);
      match r with
      | Err err =>
          fail (Errorf ("Error retrieving team " +:+ teamID
                        +:+ ": " +:+ Error err))
      | Ok tm =>
          let options := teamAccessAddOptions d access tm ws in
          Printf ("[DEBUG] Give team " +:+ tm_Name tm +:+ " " +:+ access
                  +:+ " access to workspace: " +:+ ws_Name ws);;
          r ← request (CallTeamAccessAdd options)
                (TeamAccess_Add tfeClient options);
          match r with
          | Err err =>
              fail (Errorf ("Error giving team " +:+ tm_Name tm +:+ " "
                            +:+ access +:+ " access to workspace "
                            +:+ ws_Name ws +:+ ": " +:+ Error err))
          | Ok tmAccess =>
              SetId (ta_ID tmAccess);;
              resourceTFETeamAccessRead tfeClient
          end
      end
  end.

Definition resourceTFETeamAccessUpdate (tfeClient : Client) : Op unit :=
  d ← getData;
  let options := teamAccessUpdateOptions d in
  Printf ("[DEBUG] Update team access: " +:+ ResourceData.Id d);;
  r ← request (CallTeamAccessUpdate (ResourceData.Id d) options)
        (TeamAccess_Update tfeClient (ResourceData.Id d) options);
  match r with
  | Err err =>
      fail (Errorf ("Error updating team access " +:+ ResourceData.Id d
                    +:+ ": " +:+ Error err))
  | Ok tmAccess =>
      e ← Set_ "permissions" (VList (permissionsOf tmAccess));
      match e with
      | Some err =>
          fail (Errorf ("error setting permissions for team access "
                        +:+ ResourceData.Id d +:+ ": " +:+ Error err))
      | None => mret tt
      end
  end.

Definition resourceTFETeamAccessDelete (tfeClient : Client) : Op unit :=
  d ← getData;
  Printf ("[DEBUG] Delete team access: " +:+ ResourceData.Id d);;
  err ← request (CallTeamAccessRemove (ResourceData.Id d))
          (TeamAccess_Remove tfeClient (ResourceData.Id d));
  match err with
  | Some err =>
      if isErrResourceNotFound err then mret tt
      else
        fail (Errorf ("Error deleting team access " +:+ ResourceData.Id d
                      +:+ ": " +:+ Error err))
  | None => mret tt
  end.

(** ** resource_tfe_notification_configuration.go *)

Definition resourceTFENotificationConfigurationRead (tfeClient : Client)
  : Op unit :=
  d ← getData;
  Printf ("[DEBUG] Read notification configuration: "
          +:+ ResourceData.Id d);;
  r ← request (CallNotificationConfigurationsRead (ResourceData.Id d))
        (NotificationConfigurations_Read tfeClient (ResourceData.Id d));
  match r with
  | Err err =>
      if isErrResourceNotFound err then
        Printf ("[DEBUG] Notification configuration "
                +:+ ResourceData.Id d +:+ " no longer exists");;
        SetId "";;
        mret tt
      else
        fail (Errorf ("Error reading notification configuration "
                      +:+ ResourceData.Id d +:+ ": " +:+ Error err))
  | Ok notificationConfiguration =>
      Set_ "destination_type"
        (VString (nc_DestinationType notificationConfiguration));;
      Set_ "enabled" (VBool (nc_Enabled notificationConfiguration));;
      Set_ "name" (VString (nc_Name notificationConfiguration));;
      Set_ "triggers"
        (VSet (list_to_set (nc_Triggers notificationConfiguration)));;
      Set_ "url" (VString (nc_URL notificationConfiguration));;
      Set_ "workspace_external_id"
        (VString (nc_SubscribableID notificationConfiguration));;
      Set_ "workspace_id"
        (VString (nc_SubscribableID notificationConfiguration));;
      mret tt
  end.

Definition resourceTFENotificationConfigurationCreate (tfeClient : Client)
  : Op unit :=
  d ← getData;
  let '(workspaceExternalIDValue, workspaceExternalIDValueOk) :=
    ResourceData.GetOk d "workspace_external_id" in
  let '(workspaceIDValue, workspaceIDValueOk) :=
    ResourceData.GetOk d "workspace_id" in
  if negb workspaceExternalIDValueOk && negb workspaceIDValueOk then
    fail (Errorf "One of workspace_id or workspace_external_id must be set")
  else
    let workspaceID :=
      if workspaceExternalIDValueOk
      then ResourceData.asString workspaceExternalIDValue
      else ResourceData.asString workspaceIDValue in
    let destinationType := ResourceData.GetString d "destination_type" in
    let enabled := ResourceData.GetBool d "enabled" in
    let name := ResourceData.GetString d "name" in
    let token := ResourceData.GetString d "token" in
    let url := ResourceData.GetString d "url" in
    if negb (token =? "") &&
       (destinationType =? NotificationDestinationTypeSlack) then
      fail (Errorf ("Token cannot be set with destination_type of "
                    +:+ destinationType))
    else
      let options :=
        {| nco_DestinationType := Some destinationType;
           nco_Enabled := Some enabled;
           nco_Name := Some name;
           nco_Token := Some token;
           nco_URL := Some url;
           nco_Triggers := ResourceData.GetSetList d "triggers" |} in
      Printf ("[DEBUG] Create notification configuration: " +:+ name);;
      r ← request (CallNotificationConfigurationsCreate workspaceID options)
            (NotificationConfigurations_Create tfeClient workspaceID options);
      match r with
      | Err err =>
          fail (Errorf ("Error creating notification configuration "
                        +:+ name +:+ ": " +:+ Error err))
      | Ok notificationConfiguration =>
          SetId (nc_ID notificationConfiguration);;
          resourceTFENotificationConfigurationRead tfeClient
      end.

Definition resourceTFENotificationConfigurationUpdate (tfeClient : Client)
  : Op unit :=
  d ← getData;
  let destinationType := ResourceData.GetString d "destination_type" in
  let enabled := ResourceData.GetBool d "enabled" in
  let name := ResourceData.GetString d "name" in
  let token := ResourceData.GetString d "token" in
  let url := ResourceData.GetString d "url" in
  if negb (token =? "") &&
     (destinationType =? NotificationDestinationTypeSlack) then
    fail (Errorf ("Token cannot be set with destination_type of "
                  +:+ destinationType))
  else
    let options :=
      {| ncu_Enabled := Some enabled;
         ncu_Name := Some name;
         ncu_Token := Some token;
         ncu_URL := Some url;
         ncu_Triggers := ResourceData.GetSetList d "triggers" |} in
    Printf ("[DEBUG] Update notification configuration: "
            +:+ ResourceData.Id d);;
    r ← request (CallNotificationConfigurationsUpdate (ResourceData.Id d)
                   options)
          (NotificationConfigurations_Update tfeClient (ResourceData.Id d)
             options);
    match r with
    | Err err =>
        fail (Errorf ("Error updating notification configuration "
                      +:+ ResourceData.Id d +:+ ": " +:+ Error err))
    | Ok _ => resourceTFENotificationConfigurationRead tfeClient
    end.

Definition resourceTFENotificationConfigurationDelete (tfeClient : Client)
  : Op unit :=
  d ← getData;
  Printf ("[DEBUG] Delete notification configuration: "
          +:+ ResourceData.Id d);;
  err ← request (CallNotificationConfigurationsDelete (ResourceData.Id d))
          (NotificationConfigurations_Delete tfeClient (ResourceData.Id d));
  match err with
  | Some err =>
      if isErrResourceNotFound err then mret tt
      else
        fail (Errorf ("Error deleting notification configuration "
                      +:+ ResourceData.Id d +:+ ": " +:+ Error err))
  | None => mret tt
  end.

(** The invariant of the data model, as stated: after reconciliation
    exactly one of the two modes holds. *)
Definition mode_invariant : Prop :=
  ∀ d d' : ResourceDiff, reconciled d = Some d' → exactlyOneMode d' = true.

(** The reconciler overrides access: access is set and unchanged while
    the permissions block changed, or no access is set and a
    permissions block is present. *)
Definition overridesAccess (d : ResourceDiff) : bool :=
  ((diffGetOk d "access").2 && negb (diffHasChange d "access") &&
   diffHasChange d "permissions.0") ||
  (negb (diffGetOk d "access").2 && (diffGetOk d "permissions").2).

(** The proposed permissions block is not left to the server to compute
    and holds an explicit field. *)
Definition proposesExplicitField (d : ResourceDiff) : bool :=
  negb (isComputed d "permissions") &&
  match newPermissions d with
  | p :: _ => hasExplicitField p
  | [] => false
  end.

(** The reconciler marks the permissions as computed: access is set and
    changed to a value other than "custom". *)
Definition recomputesPermissions (d : ResourceDiff) : bool :=
  (diffGetOk d "access").2 && diffHasChange d "access" &&
  negb (newAccess d =? "custom").

(** ** The checks and options of the notification configuration

    The parts of [resourceTFENotificationConfigurationCreate] and
    [resourceTFENotificationConfigurationUpdate] the statements below
    name; each is the expression of the function. *)

(** Neither workspace_external_id nor workspace_id is set. *)
Definition workspaceMissing (d : ResourceData.t) : bool :=
  negb (ResourceData.GetOk d "workspace_external_id").2 &&
  negb (ResourceData.GetOk d "workspace_id").2.

(** The workspace the configuration is created in. *)
Definition workspaceIDOf (d : ResourceData.t) : string :=
  if (ResourceData.GetOk d "workspace_external_id").2
  then ResourceData.asString (ResourceData.GetOk d "workspace_external_id").1
  else ResourceData.asString (ResourceData.GetOk d "workspace_id").1.

(** A token is set and the destination type is slack. *)
Definition tokenWithSlack (d : ResourceData.t) : bool :=
  negb (ResourceData.GetString d "token" =? "") &&
  (ResourceData.GetString d "destination_type" =?
   NotificationDestinationTypeSlack).

Definition notificationCreateOptions (d : ResourceData.t)
  : NotificationConfigurationCreateOptions :=
  {| nco_DestinationType := Some (ResourceData.GetString d "destination_type");
     nco_Enabled := Some (ResourceData.GetBool d "enabled");
     nco_Name := Some (ResourceData.GetString d "name");
     nco_Token := Some (ResourceData.GetString d "token");
     nco_URL := Some (ResourceData.GetString d "url");
     nco_Triggers := ResourceData.GetSetList d "triggers" |}.

Definition notificationUpdateOptions (d : ResourceData.t)
  : NotificationConfigurationUpdateOptions :=
  {| ncu_Enabled := Some (ResourceData.GetBool d "enabled");
     ncu_Name := Some (ResourceData.GetString d "name");
     ncu_Token := Some (ResourceData.GetString d "token");
     ncu_URL := Some (ResourceData.GetString d "url");
     ncu_Triggers := ResourceData.GetSetList d "triggers" |}.

(** ** What an error tells the host

    The function returned a non-nil error made by [fmt.Errorf] whose
    message holds each of the given pieces of context. *)
Definition surfaced (r : result unit * World) (context : list string)
  : Prop :=
  ∃ msg : string,
    r.1 = Err (Errorf msg) ∧
    Forall (λ part, contains part msg = true) context.

(** ** Sample clients and resource data *)

Definition sampleWorkspace : Workspace := mkWorkspace "ws-1" "prod".

Definition sampleTeam : Team := mkTeam "team-1" "devs".

Definition sampleTeamAccess : TeamAccess :=
  mkTeamAccess "tws-9" "read" "read" "read" "read" "none" false
    (Some sampleTeam).

Definition sampleNotificationConfiguration : NotificationConfiguration :=
  mkNotificationConfiguration "nc-9" "generic" true "alerts"
    ["run:created"] "https://example.com/hook" "ws-1".

Definition answer {A : Type} (failing : bool) (err : error) (a : A)
  : result A :=
  if failing then Err err else Ok a.

(** A client that fails with [err] on the requests [failing] selects
    and answers the others with the samples above. *)
Definition sampleClient (failing : Call → bool) (err : error) : Client :=
  {| Workspaces_ReadByID id :=
       answer (failing (CallWorkspacesReadByID id)) err sampleWorkspace;
     Teams_Read id :=
       answer (failing (CallTeamsRead id)) err sampleTeam;
     TeamAccess_Add options :=
       answer (failing (CallTeamAccessAdd options)) err sampleTeamAccess;
     TeamAccess_Read id :=
       answer (failing (CallTeamAccessRead id)) err sampleTeamAccess;
     TeamAccess_Update id options :=
       answer (failing (CallTeamAccessUpdate id options)) err
         sampleTeamAccess;
     TeamAccess_Remove id :=
       if failing (CallTeamAccessRemove id) then Some err else None;
     NotificationConfigurations_Create workspaceID options :=
       answer (failing (CallNotificationConfigurationsCreate workspaceID
                          options)) err sampleNotificationConfiguration;
     NotificationConfigurations_Read id :=
       answer (failing (CallNotificationConfigurationsRead id)) err
         sampleNotificationConfiguration;
     NotificationConfigurations_Update id options :=
       answer (failing (CallNotificationConfigurationsUpdate id options))
         err sampleNotificationConfiguration;
     NotificationConfigurations_Delete id :=
       if failing (CallNotificationConfigurationsDelete id)
       then Some err else None |}.

Definition everyRequest (c : Call) : bool := true.

Definition onlyTeamsRead (c : Call) : bool :=
  match c with CallTeamsRead _ => true | _ => false end.

Definition onlyTeamAccessAdd (c : Call) : bool :=
  match c with CallTeamAccessAdd _ => true | _ => false end.

Definition onlyTeamAccessRead (c : Call) : bool :=
  match c with CallTeamAccessRead _ => true | _ => false end.

Definition onlyNotificationConfigurationsRead (c : Call) : bool :=
  match c with CallNotificationConfigurationsRead _ => true | _ => false end.

Definition serverError : error := errorString "internal server error".

(** A team access "tws-1" whose access goes from "read" to "write". *)
Definition world_team_access : World :=
  {| data :=
       {| ResourceData.id := "tws-1";
          ResourceData.state :=
            list_to_map [("access", VString "read");
                         ("workspace_id", VString "ws-1");
                         ("team_id", VString "team-1")];
          ResourceData.attrs :=
            list_to_map [("access", VString "write");
                         ("workspace_id", VString "ws-1");
                         ("team_id", VString "team-1")] |};
     calls := [];
     logs := [] |}.

(** A generic notification configuration "nc-1". *)
Definition world_notification : World :=
  {| data :=
       {| ResourceData.id := "nc-1";
          ResourceData.state := ∅;
          ResourceData.attrs :=
            list_to_map [("name", VString "alerts");
                         ("destination_type", VString "generic");
                         ("enabled", VBool true);
                         ("token", VString "");
                         ("url", VString "https://example.com/hook");
                         ("workspace_id", VString "ws-1")] |};
     calls := [];
     logs := [] |}.

(** A slack notification configuration with a token. *)
Definition world_slack_token : World :=
  {| data :=
       {| ResourceData.id := "nc-2";
          ResourceData.state := ∅;
          ResourceData.attrs :=
            list_to_map [("name", VString "chat");
                         ("destination_type", VString "slack");
                         ("enabled", VBool true);
                         ("token", VString "s3cret");
                         ("url", VString "https://hooks.slack.com/x");
                         ("workspace_id", VString "ws-1")] |};
     calls := [];
     logs := [] |}.

(** ** resourceTFETeamAccessImporter (resource_tfe_team_access.go) *)

(** [s[n:]], all of [s] gone when it is shorter. *)
Fixpoint skip (n : nat) (s : string) : string :=
  match n, s with
  | 0, _ => s
  | S n', String _ s' => skip n' s'
  | S _, EmptyString => EmptyString
  end.

(** Cuts [s] around the first occurrence of [sep]: what is before it and
    what is after it. *)
Fixpoint cut (sep s : string) : option (string * string) :=
  if String.prefix sep s then Some ("", skip (String.length sep) s)
  else
    match s with
    | EmptyString => None
    | String c s' =>
        match cut sep s' with
        | Some (before, after) => Some (String c before, after)
        | None => None
        end
    end.

(** [strings.SplitN(s, sep, n)] for a separator that is not empty and a
    count that is not negative: at most [n] pieces, the last one the
    remainder that is not split. *)
Fixpoint SplitN (s sep : string) (n : nat) : list string :=
  match n with
  | 0 => []
  | S n' =>
      match n' with
      | 0 => [s]
      | S _ =>
          match cut sep s with
          | Some (before, after) => before :: SplitN after sep n'
          | None => [s]
          end
      end
  end.

(** [strings.Join(l, sep)] *)
Fixpoint Join (l : list string) (sep : string) : string :=
  match l with
  | [] => ""
  | [x] => x
  | x :: l' => x +:+ sep +:+ Join l' sep
  end.

(** The importer.  [fetchWorkspaceExternalID] is a helper of the
    provider that lives in another file; it is a parameter here.  The
    function returns the list holding [d], as it is after the writes. *)
Definition resourceTFETeamAccessImporter
    (fetchWorkspaceExternalID : string → Client → result string)
    (tfeClient : Client) : Op (list ResourceData.t) :=
  d ← getData;
  let s := SplitN (ResourceData.Id d) "/" 3 in
  match s with
  | [s0; s1; s2] =>
      match fetchWorkspaceExternalID (s0 +:+ "/" +:+ s1) tfeClient with
      | Err err =>
          fail (Errorf ("error retrieving workspace " +:+ s0
                        +:+ " from organization " +:+ s1
                        +:+ ": " +:+ Error err))
      | Ok workspace_id =>
          Set_ "workspace_id" (VString workspace_id);;
          SetId s2;;
          d' ← getData;
          mret [d']
      end
  | _ =>
      fail (Errorf ("invalid team access import format: "
                    +:+ ResourceData.Id d
                    +:+ " (expected <ORGANIZATION>/<WORKSPACE>/<TEAM ACCESS ID>)"))
  end.

(** ** The validation of "access" (resourceTFETeamAccess, Schema) *)

(** go-tfe constants. *)
Definition AccessAdmin : string := "admin".
Definition AccessRead : string := "read".
Definition AccessPlan : string := "plan".
Definition AccessWrite : string := "write".

(** [validation.StringInSlice(valid, false)]: nil when the value is one
    of [valid], an error otherwise. *)
Definition StringInSlice (valid : list string) (v : string) (k : string)
  : option error :=
  if existsb (String.eqb v) valid then None
  else Some (Errorf ("expected " +:+ k +:+ " to be one of ["
                     +:+ Join valid " " +:+ "], got " +:+ v)).

(** The [ValidateFunc] of "access". *)
Definition validateAccess (v : string) : option error :=
  StringInSlice [AccessAdmin; AccessRead; AccessPlan; AccessWrite] v "access".

(** ** More sample data *)

(** A team access about to be created: it has no ID yet. *)
Definition world_new_team_access : World :=
  {| data :=
       {| ResourceData.id := "";
          ResourceData.state := ∅;
          ResourceData.attrs :=
            list_to_map [("access", VString "write");
                         ("workspace_id", VString "ws-1");
                         ("team_id", VString "team-1")] |};
     calls := [];
     logs := [] |}.

(** Its create against an API that finds the workspace and the team and
    refuses the grant. *)
Definition refusedGrant : result unit * World :=
  resourceTFETeamAccessCreate (sampleClient onlyTeamAccessAdd serverError)
    world_new_team_access.

(** An answer of the API that lists a trigger twice. *)
Definition repeatedTriggers : NotificationConfiguration :=
  mkNotificationConfiguration "nc-2" "slack" true "alerts"
    ["run:errored"; "run:created"; "run:errored"]
    "https://hooks.slack.com/x" "ws-1".

(** A client whose read of a team access answers without a team. *)
Definition teamlessAccess : TeamAccess :=
  mkTeamAccess "tws-1" "custom" "apply" "write" "read" "none" true None.

Definition sampleFetch (id : string) (c : Client) : result string :=
  if id =? "acme/prod" then Ok "ws-1" else Err serverError.

Definition world_import (importID : string) : World :=
  {| data :=
       {| ResourceData.id := importID;
          ResourceData.state := ∅;
          ResourceData.attrs := ∅ |};
     calls := [];
     logs := [] |}.

(** A notification configuration with no workspace given. *)
Definition world_no_workspace : World :=
  {| data :=
       {| ResourceData.id := "";
          ResourceData.state := ∅;
          ResourceData.attrs :=
            list_to_map [("name", VString "alerts");
                         ("destination_type", VString "generic");
                         ("url", VString "https://example.com/hook")] |};
     calls := [];
     logs := [] |}.

(** A notification configuration with both workspace attributes set. *)
Definition world_both_workspaces : World :=
  {| data :=
       {| ResourceData.id := "";
          ResourceData.state := ∅;
          ResourceData.attrs :=
            list_to_map [("name", VString "alerts");
                         ("destination_type", VString "generic");
                         ("url", VString "https://example.com/hook");
                         ("workspace_external_id", VString "ws-ext");
                         ("workspace_id", VString "ws-id")] |};
     calls := [];
     logs := [] |}.

(** A team access with a permissions block whose runs field goes from
    "read" to "apply" and whose workspace locking goes from true to
    false. *)
Definition world_custom_access : World :=
  {| data :=
       {| ResourceData.id := "tws-1";
          ResourceData.state :=
            list_to_map
              [("access", VString "custom");
               ("permissions",
                VList [mkPermissions "read" "none" "" "" true])];
          ResourceData.attrs :=
            list_to_map
              [("access", VString "custom");
               ("workspace_id", VString "ws-1");
               ("team_id", VString "team-1");
               ("permissions",
                VList [mkPermissions "apply" "none" "" "" false])] |};
     calls := [];
     logs := [] |}.

(** ** Sample diffs *)

(** An existing resource whose access goes from "read" to "write". *)
Definition diff_read_to_write : ResourceDiff :=
  {| oldAccess := "read"; newAccess := "write";
     oldPermissions := []; newPermissions := [];
     newComputed := ∅ |}.

(** A second pass over a diff whose access was overridden to "custom". *)
Definition diff_read_to_custom : ResourceDiff :=
  {| oldAccess := "read"; newAccess := "custom";
     oldPermissions := [mkPermissions "read" "" "" "" false];
     newPermissions := [mkPermissions "apply" "" "" "" false];
     newComputed := ∅ |}.

(** Access "read" is kept, the runs field of the block changes. *)
Definition diff_runs_changed : ResourceDiff :=
  {| oldAccess := "read"; newAccess := "read";
     oldPermissions := [mkPermissions "read" "" "" "" false];
     newPermissions := [mkPermissions "apply" "" "" "" false];
     newComputed := ∅ |}.

(** A new resource with a permissions block and no access.  An
    attribute that is Optional and Computed and that the configuration
    leaves out reaches the hook marked as computed. *)
Definition diff_new_with_block : ResourceDiff :=
  {| oldAccess := ""; newAccess := "";
     oldPermissions := [];
     newPermissions := [mkPermissions "plan" "" "" "" false];
     newComputed := {[ "access" ]} |}.

(** A new resource with neither access nor a permissions block: both
    reach the hook marked as computed. *)
Definition diff_new_without_block : ResourceDiff :=
  {| oldAccess := ""; newAccess := "";
     oldPermissions := []; newPermissions := [];
     newComputed := {[ "access" ]} ∪ {[ "permissions" ]} |}.

(** A new resource with a permissions block that sets no field, and no
    access. *)
Definition diff_new_empty_block : ResourceDiff :=
  {| oldAccess := ""; newAccess := "";
     oldPermissions := [];
     newPermissions := [mkPermissions "" "" "" "" false];
     newComputed := {[ "access" ]} |}.

(** An existing resource at access "read" with nothing changed: the
    permissions are those the last read wrote to the state. *)
Definition diff_steady_read : ResourceDiff :=
  {| oldAccess := "read"; newAccess := "read";
     oldPermissions := [mkPermissions "read" "read" "read" "none" false];
     newPermissions := [mkPermissions "read" "read" "read" "none" false];
     newComputed := ∅ |}.

(** A new resource with another permissions block: another diff, the
    same observation. *)
Definition diff_new_other_block : ResourceDiff :=
  {| oldAccess := ""; newAccess := "";
     oldPermissions := [];
     newPermissions := [mkPermissions "apply" "read" "" "" true];
     newComputed := {[ "access" ]} |}.

(** * Properties *)

(** ** The reconciler *)

Section Reconciler.

Context {D : Type} `{DiffContext D}.

(** The recording context reads what the context under it reads. *)
Lemma recording_run (d : D) (l : list mutation) :
  setCustomOrComputedPermissions (d, l) =
  match setCustomOrComputedPermissions d with
  | Returned (d', e) =>
      Returned
        ((d', (l ++ match decision d with
                    | Returned m => m
                    | Panicked => []
                    end)%list), e)
  | Panicked => Panicked
  end.
Proof.
  unfold decision, setCustomOrComputedPermissions; simpl.
  destruct (GetOk d "access") as [v ok].
  destruct ok.
  - destruct (HasChange d "access").
    + destruct (GetChange d "access") as [o n].
      destruct n; try reflexivity.
      destruct (negb (s =? "custom")).
      * destruct (SetNewComputed d "permissions"); reflexivity.
      * simpl; rewrite app_nil_r; reflexivity.
    + destruct (HasChange d "permissions.0").
      * destruct (SetNew d "access" (VString AccessCustom)); reflexivity.
      * simpl; rewrite app_nil_r; reflexivity.
  - destruct (GetOk d "permissions") as [p okp].
    destruct okp.
    + destruct (SetNew d "access" (VString AccessCustom)); reflexivity.
    + simpl; rewrite app_nil_r; reflexivity.
Qed.

(** The code follows the decision table, row by row. *)
Lemma decision_Reconcile (d : D) (accessOld : string) (s : string) :
  (GetChange d "access").2 = VString s →
  decision d =
  Returned
    (mutations_of
       (Reconcile (GetOk d "access").2 (HasChange d "access")
          accessOld s
          (HasChange d "permissions.0") (GetOk d "permissions").2)).
Proof.
  intros Hs.
  unfold decision, setCustomOrComputedPermissions, Reconcile,
    mutations_of; simpl.
  destruct (GetOk d "access") as [v ok]; simpl.
  destruct ok.
  - destruct (HasChange d "access").
    + destruct (GetChange d "access") as [o n]; simpl in Hs; subst n.
      destruct (negb (s =? "custom")).
      * destruct (SetNewComputed d "permissions"); reflexivity.
      * reflexivity.
    + destruct (HasChange d "permissions.0").
      * destruct (SetNew d "access" (VString AccessCustom)); reflexivity.
      * reflexivity.
  - destruct (GetOk d "permissions") as [p okp]; simpl.
    destruct okp.
    + destruct (SetNew d "access" (VString AccessCustom)); reflexivity.
    + reflexivity.
Qed.

End Reconciler.

Lemma eqb_custom_false (new : string) :
  new ≠ "custom" → (new =? "custom") = false.
Proof. intros Hn. apply String.eqb_neq. exact Hn. Qed.

(** C1: when access is set, changed this apply, and its proposed value
    is not "custom", the reconciler marks "permissions" as computed and
    does nothing else: the diff it leaves is the one [SetNewComputed]
    returns, no value of access is overridden, and it returns nil. *)
Theorem changed_to_fixed_level_recomputes_permissions
    {D : Type} `{DiffContext D} (d : D) (v o : value) (new : string) :
  GetOk d "access" = (v, true) →
  HasChange d "access" = true →
  GetChange d "access" = (o, VString new) →
  new ≠ "custom" →
  setCustomOrComputedPermissions d =
    Returned ((SetNewComputed d "permissions").1, None)
  ∧ decision d = Returned [MarkComputed "permissions"].
Proof.
  intros Hok Hch Hget Hnew.
  apply eqb_custom_false in Hnew.
  unfold decision, setCustomOrComputedPermissions; simpl.
  rewrite Hok, Hch, Hget, Hnew; simpl.
  destruct (SetNewComputed d "permissions"); split; reflexivity.
Qed.

Lemma changed_to_fixed_level_witness :
  setCustomOrComputedPermissions diff_read_to_write =
    Returned ((SetNewComputed diff_read_to_write "permissions").1, None)
  ∧ decision diff_read_to_write = Returned [MarkComputed "permissions"].
Proof.
  apply (changed_to_fixed_level_recomputes_permissions
           diff_read_to_write (VString "write") (VString "read") "write").
  - reflexivity.
  - reflexivity.
  - reflexivity.
  - discriminate.
Defined.

(** C2: when access is set, changed this apply, and its proposed value
    is "custom", the reconciler marks nothing and overrides nothing: the
    diff is left as it was, and it returns nil. *)
Theorem changed_to_custom_leaves_diff
    {D : Type} `{DiffContext D} (d : D) (v o : value) :
  GetOk d "access" = (v, true) →
  HasChange d "access" = true →
  GetChange d "access" = (o, VString "custom") →
  setCustomOrComputedPermissions d = Returned (d, None)
  ∧ decision d = Returned [].
Proof.
  intros Hok Hch Hget.
  unfold decision, setCustomOrComputedPermissions; simpl.
  rewrite Hok, Hch, Hget; simpl.
  split; reflexivity.
Qed.

Lemma changed_to_custom_witness :
  setCustomOrComputedPermissions diff_read_to_custom =
    Returned (diff_read_to_custom, None)
  ∧ decision diff_read_to_custom = Returned [].
Proof.
  apply (changed_to_custom_leaves_diff
           diff_read_to_custom (VString "custom") (VString "read")).
  - reflexivity.
  - reflexivity.
  - reflexivity.
Defined.

(** C3: when access is set and did not change this apply, and the
    permissions block changed, the reconciler overrides the proposed
    access with "custom" and marks nothing as computed. *)
Theorem permissions_changed_overrides_access
    {D : Type} `{DiffContext D} (d : D) (v : value) :
  GetOk d "access" = (v, true) →
  HasChange d "access" = false →
  HasChange d "permissions.0" = true →
  setCustomOrComputedPermissions d =
    Returned ((SetNew d "access" (VString "custom")).1, None)
  ∧ decision d = Returned [Override "access" (VString "custom")].
Proof.
  intros Hok Hch Hperm.
  unfold decision, setCustomOrComputedPermissions, AccessCustom; simpl.
  rewrite Hok, Hch, Hperm; simpl.
  destruct (SetNew d "access" (VString "custom")); split; reflexivity.
Qed.

Lemma permissions_changed_witness :
  setCustomOrComputedPermissions diff_runs_changed =
    Returned ((SetNew diff_runs_changed "access" (VString "custom")).1, None)
  ∧ decision diff_runs_changed =
    Returned [Override "access" (VString "custom")].
Proof.
  apply (permissions_changed_overrides_access
           diff_runs_changed (VString "read")).
  - reflexivity.
  - reflexivity.
  - reflexivity.
Defined.

(** C4: when no access value is present (a new resource), the
    reconciler overrides access with "custom" if a permissions block is
    present, and leaves the diff as it is if none is. *)
Theorem no_access_follows_permissions_block
    {D : Type} `{DiffContext D} (d : D) (v p : value) (present : bool) :
  GetOk d "access" = (v, false) →
  GetOk d "permissions" = (p, present) →
  (present = true →
     setCustomOrComputedPermissions d =
       Returned ((SetNew d "access" (VString "custom")).1, None)
     ∧ decision d = Returned [Override "access" (VString "custom")])
  ∧ (present = false →
     setCustomOrComputedPermissions d = Returned (d, None)
     ∧ decision d = Returned []).
Proof.
  intros Hok Hperm.
  unfold decision, setCustomOrComputedPermissions, AccessCustom; simpl.
  rewrite Hok, Hperm; simpl.
  split; intros ->.
  - destruct (SetNew d "access" (VString "custom")); split; reflexivity.
  - split; reflexivity.
Qed.

Lemma no_access_witness :
  (setCustomOrComputedPermissions diff_new_with_block =
     Returned ((SetNew diff_new_with_block "access" (VString "custom")).1,
               None)
   ∧ decision diff_new_with_block =
     Returned [Override "access" (VString "custom")])
  ∧ (setCustomOrComputedPermissions diff_new_without_block =
       Returned (diff_new_without_block, None)
     ∧ decision diff_new_without_block = Returned []).
Proof.
  split.
  - apply (no_access_follows_permissions_block diff_new_with_block
             (VString "") (VList [mkPermissions "plan" "" "" "" false])
             true); reflexivity.
  - apply (no_access_follows_permissions_block diff_new_without_block
             (VString "") (VList []) false); reflexivity.
Defined.

(** C5: the decision is a function of the diff state the reconciler is
    given: two invocations that are presented the same state (is access
    set, did it change, its proposed value, did permissions change, is a
    permissions block present) take the same decision, whatever else the
    two diffs hold and however often the hook is run. *)
Theorem decision_deterministic
    {D1 : Type} `{DiffContext D1} {D2 : Type} `{DiffContext D2}
    (d1 : D1) (d2 : D2) :
  observation d1 = observation d2 →
  decision d1 = decision d2.
Proof.
  unfold observation; intros Hobs.
  injection Hobs as Hok Hch Hnew Hperm Hpres.
  unfold decision, setCustomOrComputedPermissions; simpl.
  destruct (GetOk d1 "access") as [v1 ok1].
  destruct (GetOk d2 "access") as [v2 ok2].
  simpl in Hok; subst ok2.
  destruct ok1.
  - rewrite <- Hch.
    destruct (HasChange d1 "access").
    + destruct (GetChange d1 "access") as [o1 n1].
      destruct (GetChange d2 "access") as [o2 n2].
      simpl in Hnew; subst n2.
      destruct n1; try reflexivity.
      destruct (negb (s =? "custom")); [|reflexivity].
      destruct (SetNewComputed d1 "permissions").
      destruct (SetNewComputed d2 "permissions").
      reflexivity.
    + rewrite <- Hperm.
      destruct (HasChange d1 "permissions.0"); [|reflexivity].
      destruct (SetNew d1 "access" (VString AccessCustom)).
      destruct (SetNew d2 "access" (VString AccessCustom)).
      reflexivity.
  - destruct (GetOk d1 "permissions") as [p1 okp1].
    destruct (GetOk d2 "permissions") as [p2 okp2].
    simpl in Hpres; subst okp2.
    destruct okp1; [|reflexivity].
    destruct (SetNew d1 "access" (VString AccessCustom)).
    destruct (SetNew d2 "access" (VString AccessCustom)).
    reflexivity.
Qed.

Lemma decision_deterministic_witness :
  decision diff_new_with_block = decision diff_new_other_block.
Proof.
  apply (decision_deterministic
           diff_new_with_block diff_new_other_block).
  vm_compute. reflexivity.
Defined.

(** C6: the reconciler is total and has no error case: whenever the
    proposed access is a string (the schema types it so), it returns,
    and what it returns is the nil error. *)
Theorem reconciler_total_nil_error
    {D : Type} `{DiffContext D} (d : D) (s : string) :
  (GetChange d "access").2 = VString s →
  ∃ d' : D, setCustomOrComputedPermissions d = Returned (d', None).
Proof.
  intros Hs.
  unfold setCustomOrComputedPermissions.
  destruct (GetOk d "access") as [v ok].
  destruct ok.
  - destruct (HasChange d "access").
    + destruct (GetChange d "access") as [o n]; simpl in Hs; subst n.
      destruct (negb (s =? "custom")).
      * destruct (SetNewComputed d "permissions") as [d1 e].
        exists d1; reflexivity.
      * exists d; reflexivity.
    + destruct (HasChange d "permissions.0").
      * destruct (SetNew d "access" (VString AccessCustom)) as [d1 e].
        exists d1; reflexivity.
      * exists d; reflexivity.
  - destruct (GetOk d "permissions") as [p okp].
    destruct okp.
    + destruct (SetNew d "access" (VString AccessCustom)) as [d1 e].
      exists d1; reflexivity.
    + exists d; reflexivity.
Qed.

Lemma reconciler_total_witness :
  ∃ d' : ResourceDiff,
    setCustomOrComputedPermissions diff_runs_changed = Returned (d', None).
Proof.
  apply (reconciler_total_nil_error diff_runs_changed "read").
  reflexivity.
Defined.

(** On the diff context of the team access resource the proposed access
    is always a string, so the reconciler returns nil there on every
    diff. *)
Lemma reconciler_total_on_ResourceDiff (d : ResourceDiff) :
  ∃ d' : ResourceDiff,
    setCustomOrComputedPermissions d = Returned (d', None).
Proof.
  unfold setCustomOrComputedPermissions, AccessCustom; simpl.
  destruct (negb (isComputed d "access") && negb (newAccess d =? "")).
  - destruct (diffHasChange d "access").
    + destruct (negb (newAccess d =? "custom")); eexists; reflexivity.
    + destruct (diffHasChange d "permissions.0"); eexists; reflexivity.
  - destruct (negb (isComputed d "permissions") &&
              negb (bool_decide (newPermissions d = [])));
      eexists; reflexivity.
Qed.

(** ** The two modes after reconciliation *)

Lemma isComputed_SetNewComputed (d : ResourceDiff) (key k : string) :
  computedKey key = true →
  isComputed (diffSetNewComputed d key).1 k =
  (k =? key) || isComputed d k.
Proof.
  intros Hkey. unfold diffSetNewComputed, isComputed. rewrite Hkey. simpl.
  destruct (String.eqb_spec k key) as [->|Hne]; simpl.
  - apply bool_decide_eq_true. apply elem_of_union_l, elem_of_singleton.
    reflexivity.
  - apply bool_decide_ext. rewrite elem_of_union, elem_of_singleton.
    tauto.
Qed.

Lemma isComputed_SetNew_access (d : ResourceDiff) (s k : string) :
  isComputed (diffSetNew d "access" (VString s)).1 k =
  negb (k =? "access") && isComputed d k.
Proof.
  unfold diffSetNew, isComputed. simpl.
  destruct (String.eqb_spec k "access") as [->|Hne]; simpl.
  - apply bool_decide_eq_false. rewrite elem_of_difference, elem_of_singleton.
    tauto.
  - apply bool_decide_ext. rewrite elem_of_difference, elem_of_singleton.
    tauto.
Qed.

Lemma GetOk_access_SetNewComputed_permissions (d : ResourceDiff) :
  diffGetOk (diffSetNewComputed d "permissions").1 "access" =
  diffGetOk d "access".
Proof.
  unfold diffGetOk.
  rewrite isComputed_SetNewComputed by reflexivity.
  reflexivity.
Qed.

(** Marking "permissions" as computed leaves the old and the proposed
    access as they were. *)
Lemma GetChange_access_SetNewComputed_permissions (d : ResourceDiff) :
  diffGetChange (diffSetNewComputed d "permissions").1 "access" =
  diffGetChange d "access".
Proof. reflexivity. Qed.

(** What the reconciler leaves on the diff context of the resource. *)
Lemma reconciled_cases (d : ResourceDiff) :
  reconciled d =
  Some
    (if (diffGetOk d "access").2 then
       if diffHasChange d "access" then
         if negb (newAccess d =? "custom")
         then (diffSetNewComputed d "permissions").1
         else d
       else
         if diffHasChange d "permissions.0"
         then (diffSetNew d "access" (VString "custom")).1
         else d
     else
       if (diffGetOk d "permissions").2
       then (diffSetNew d "access" (VString "custom")).1
       else d).
Proof.
  unfold reconciled, setCustomOrComputedPermissions, AccessCustom; simpl.
  destruct (negb (isComputed d "access") && negb (newAccess d =? "")).
  - destruct (diffHasChange d "access").
    + destruct (negb (newAccess d =? "custom")); reflexivity.
    + destruct (diffHasChange d "permissions.0"); reflexivity.
  - destruct (negb (isComputed d "permissions") &&
              negb (bool_decide (newPermissions d = []))); reflexivity.
Qed.

(** The two modes exclude each other on every diff. *)
Lemma modes_exclusive (d : ResourceDiff) :
  fixedLevel d && customLevel d = false.
Proof.
  unfold fixedLevel, customLevel.
  destruct (diffGetOk d "access").2, (newAccess d =? "custom"),
    (isComputed d "permissions"); try reflexivity.
Qed.

Lemma exactlyOneMode_fixed (d : ResourceDiff) :
  fixedLevel d = true → exactlyOneMode d = true.
Proof.
  intros Hfix. pose proof (modes_exclusive d) as Hx.
  unfold exactlyOneMode.
  destruct (fixedLevel d), (customLevel d); simpl in *; congruence.
Qed.

(** After the override the access level is "custom": the first mode
    does not hold, and the second holds when the proposed block is set
    and has an explicit field. *)
Lemma modes_after_override (d : ResourceDiff) :
  fixedLevel (diffSetNew d "access" (VString "custom")).1 = false
  ∧ customLevel (diffSetNew d "access" (VString "custom")).1
    = proposesExplicitField d.
Proof.
  unfold fixedLevel, customLevel, proposesExplicitField, diffGetOk.
  rewrite !isComputed_SetNew_access. cbn.
  split; reflexivity.
Qed.

(** A diff without a set access is in neither mode. *)
Lemma no_mode_without_access (d : ResourceDiff) :
  (diffGetOk d "access").2 = false →
  fixedLevel d = false ∧ customLevel d = false.
Proof.
  intros Hok. unfold fixedLevel, customLevel. rewrite Hok.
  split; reflexivity.
Qed.

(** C9, as stated, fails, on three diffs the hook receives.  A new
    resource with neither access nor a permissions block is left as it
    is, and its access level is neither a fixed level nor "custom".  A
    new resource whose permissions block sets no field gets access
    "custom" with no explicit permission.  An existing resource at
    "read" with nothing changed is left as it is, its permissions not
    marked computed. *)
Lemma mode_invariant_fails :
  (reconciled diff_new_without_block = Some diff_new_without_block
   ∧ fixedLevel diff_new_without_block = false
   ∧ customLevel diff_new_without_block = false)
  ∧ (reconciled diff_new_empty_block
     = Some (diffSetNew diff_new_empty_block "access" (VString "custom")).1
     ∧ fixedLevel
         (diffSetNew diff_new_empty_block "access" (VString "custom")).1
       = false
     ∧ customLevel
         (diffSetNew diff_new_empty_block "access" (VString "custom")).1
       = false)
  ∧ (reconciled diff_steady_read = Some diff_steady_read
     ∧ fixedLevel diff_steady_read = false
     ∧ customLevel diff_steady_read = false)
  ∧ ¬ mode_invariant.
Proof.
  split; [split; [reflexivity|split; reflexivity]|].
  split; [split; [reflexivity|split; reflexivity]|].
  split; [split; [reflexivity|split; reflexivity]|].
  intros Hinv.
  specialize (Hinv diff_new_without_block diff_new_without_block eq_refl).
  vm_compute in Hinv. discriminate Hinv.
Qed.

(** C9, amended: after reconciliation the two modes never hold
    together, and the diff the reconciler leaves decides which holds.
    When access is set and changed this apply to a value other than
    "custom", the permissions are marked computed and the first mode
    holds.  When the reconciler overrides access with "custom" (access
    set and unchanged with the permissions block changed, or no access
    with a permissions block present), the second mode holds exactly
    when the proposed block is not computed and has an explicit field,
    and neither holds otherwise.  In every other case the diff is left
    exactly as it was given, so a mode holds after reconciliation only
    if it held before; with neither access nor a permissions block
    set, neither holds. *)
Theorem mode_after_reconciliation (d d' : ResourceDiff) :
  reconciled d = Some d' →
  fixedLevel d' && customLevel d' = false
  ∧ (recomputesPermissions d = true →
     d' = (diffSetNewComputed d "permissions").1
     ∧ fixedLevel d' = true
     ∧ exactlyOneMode d' = true)
  ∧ (overridesAccess d = true →
     d' = (diffSetNew d "access" (VString "custom")).1
     ∧ fixedLevel d' = false
     ∧ customLevel d' = proposesExplicitField d
     ∧ exactlyOneMode d' = proposesExplicitField d)
  ∧ (recomputesPermissions d = false →
     overridesAccess d = false →
     d' = d)
  ∧ ((diffGetOk d "access").2 = false →
     (diffGetOk d "permissions").2 = false →
     d' = d ∧ fixedLevel d' = false ∧ customLevel d' = false).
Proof.
  intros Hrec.
  split; [apply modes_exclusive|].
  rewrite reconciled_cases in Hrec. apply (inj Some) in Hrec. subst d'.
  assert (Hfixed :
            (diffGetOk d "access").2 = true →
            (newAccess d =? "custom") = false →
            fixedLevel (diffSetNewComputed d "permissions").1 = true).
  { intros Hok Hnew. unfold fixedLevel.
    rewrite GetOk_access_SetNewComputed_permissions, Hok.
    rewrite isComputed_SetNewComputed by reflexivity.
    simpl. rewrite Hnew. reflexivity. }
  assert (Hoverride :
            let d1 := (diffSetNew d "access" (VString "custom")).1 in
            d1 = d1 ∧ fixedLevel d1 = false
            ∧ customLevel d1 = proposesExplicitField d
            ∧ exactlyOneMode d1 = proposesExplicitField d).
  { destruct (modes_after_override d) as [Hf Hc].
    split; [reflexivity|]. split; [exact Hf|]. split; [exact Hc|].
    unfold exactlyOneMode. rewrite Hf, Hc. reflexivity. }
  unfold recomputesPermissions, overridesAccess.
  destruct (diffGetOk d "access").2 eqn:Hok.
  - destruct (diffHasChange d "access") eqn:Hch.
    + destruct (newAccess d =? "custom") eqn:Hnew; cbn [negb andb orb].
      * split; [discriminate|]. split; [discriminate|].
        split; [reflexivity|discriminate].
      * split.
        { intros _. split; [reflexivity|].
          split; [apply Hfixed; reflexivity|].
          apply exactlyOneMode_fixed, Hfixed; reflexivity. }
        split; [discriminate|]. split; discriminate.
    + destruct (diffHasChange d "permissions.0") eqn:Hperm;
        cbn [negb andb orb].
      * split; [discriminate|]. split; [intros _; exact Hoverride|].
        split; [intros _ Hf; discriminate Hf|discriminate].
      * split; [discriminate|]. split; [discriminate|].
        split; [reflexivity|discriminate].
  - destruct (diffGetOk d "permissions").2 eqn:Hpok; cbn [negb andb orb].
    + split; [discriminate|]. split; [intros _; exact Hoverride|].
      split; [intros _ Hf; discriminate Hf|intros _ Hf; discriminate Hf].
    + split; [discriminate|]. split; [discriminate|].
      split; [reflexivity|].
      intros _ _. split; [reflexivity|].
      apply no_mode_without_access, Hok.
Qed.

Lemma mode_after_reconciliation_witness :
  (fixedLevel (diffSetNewComputed diff_read_to_write "permissions").1 = true
   ∧ exactlyOneMode
       (diffSetNewComputed diff_read_to_write "permissions").1 = true)
  ∧ (customLevel (diffSetNew diff_runs_changed "access" (VString "custom")).1
       = true
     ∧ exactlyOneMode
         (diffSetNew diff_runs_changed "access" (VString "custom")).1 = true)
  ∧ exactlyOneMode
      (diffSetNew diff_new_empty_block "access" (VString "custom")).1 = false
  ∧ (fixedLevel diff_new_without_block = false
     ∧ customLevel diff_new_without_block = false).
Proof.
  destruct (mode_after_reconciliation diff_read_to_write
              (diffSetNewComputed diff_read_to_write "permissions").1
              eq_refl) as (_ & Hrecompute & _).
  destruct (mode_after_reconciliation diff_runs_changed
              (diffSetNew diff_runs_changed "access" (VString "custom")).1
              eq_refl) as (_ & _ & Hoverride & _).
  destruct (mode_after_reconciliation diff_new_empty_block
              (diffSetNew diff_new_empty_block "access" (VString "custom")).1
              eq_refl) as (_ & _ & Hempty & _).
  destruct (mode_after_reconciliation diff_new_without_block
              diff_new_without_block eq_refl) as (_ & _ & _ & _ & Hnone).
  destruct (Hrecompute eq_refl) as (_ & Hfix & Hone).
  destruct (Hoverride eq_refl) as (_ & _ & Hcus & Hone').
  destruct (Hempty eq_refl) as (_ & _ & _ & Hone'').
  destruct (Hnone eq_refl eq_refl) as (_ & Hf & Hc).
  split; [split; [exact Hfix|exact Hone]|].
  split; [split; [exact Hcus|exact Hone']|].
  split; [exact Hone''|].
  split; [exact Hf|exact Hc].
Defined.

(** ** Running the hook again

    The hook may run several times in one apply.  On the diff context of
    the resource a second run over the diff the first run left changes
    nothing more. *)

Lemma reconciled_after_override (d : ResourceDiff) :
  reconciled (diffSetNew d "access" (VString "custom")).1 =
  Some (diffSetNew d "access" (VString "custom")).1.
Proof.
  rewrite reconciled_cases.
  set (d1 := (diffSetNew d "access" (VString "custom")).1).
  assert (Hok : (diffGetOk d1 "access").2 = true).
  { unfold diffGetOk, d1. rewrite isComputed_SetNew_access. reflexivity. }
  rewrite Hok.
  destruct (diffHasChange d1 "access"); [reflexivity|].
  destruct (diffHasChange d1 "permissions.0"); [|reflexivity].
  f_equal. unfold d1, diffSetNew; simpl. f_equal.
  apply set_eq. intros k.
  rewrite !elem_of_difference. tauto.
Qed.

Lemma reconciled_after_recompute (d : ResourceDiff) :
  (diffGetOk d "access").2 = true →
  diffHasChange d "access" = true →
  (newAccess d =? "custom") = false →
  reconciled (diffSetNewComputed d "permissions").1 =
  Some (diffSetNewComputed d "permissions").1.
Proof.
  intros Hok Hch Hnew.
  rewrite reconciled_cases.
  rewrite GetOk_access_SetNewComputed_permissions, Hok.
  change (diffHasChange (diffSetNewComputed d "permissions").1 "access")
    with (diffHasChange d "access").
  change (newAccess (diffSetNewComputed d "permissions").1)
    with (newAccess d).
  rewrite Hch, Hnew. cbn [negb].
  f_equal. unfold diffSetNewComputed; simpl. f_equal.
  apply set_eq. intros k.
  rewrite !elem_of_union. tauto.
Qed.

(** X24: on the diff context of the resource, running the hook again
    over the diff a first run left changes nothing: the reconciled diff
    is a fixed point of the reconciler. *)
Lemma reconciled_idempotent (d d' : ResourceDiff) :
  reconciled d = Some d' → reconciled d' = Some d'.
Proof.
  intros Hrec.
  pose proof Hrec as Hcases.
  rewrite reconciled_cases in Hcases. apply (inj Some) in Hcases.
  destruct (diffGetOk d "access").2 eqn:Hok.
  - destruct (diffHasChange d "access") eqn:Hch.
    + destruct (newAccess d =? "custom") eqn:Hnew; cbn [negb] in Hcases;
        subst d'.
      * exact Hrec.
      * apply reconciled_after_recompute; assumption.
    + destruct (diffHasChange d "permissions.0"); subst d'.
      * apply reconciled_after_override.
      * exact Hrec.
  - destruct (diffGetOk d "permissions").2; subst d'.
    + apply reconciled_after_override.
    + exact Hrec.
Qed.

(** ** Error handling of the CRUD functions *)

#[local] Arguments String.append : simpl never.

(** *** What a message mentions *)

Lemma prefix_app (s t : string) : String.prefix s (s +:+ t) = true.
Proof.
  induction s as [|a s IH]; simpl.
  - destruct t; reflexivity.
  - unfold String.append; fold String.append. simpl.
    destruct (Ascii.ascii_dec a a) as [_|Hne]; [exact IH|].
    exfalso; apply Hne; reflexivity.
Qed.

Lemma prefix_app_l (sub s t : string) :
  String.prefix sub s = true → String.prefix sub (s +:+ t) = true.
Proof.
  revert s. induction sub as [|a sub IH]; intros s Hp.
  - destruct (s +:+ t); reflexivity.
  - destruct s as [|b s]; simpl in Hp; [discriminate|].
    unfold String.append; fold String.append. simpl.
    destruct (Ascii.ascii_dec a b); [|discriminate].
    apply IH, Hp.
Qed.

Lemma contains_prefix (sub s : string) :
  String.prefix sub s = true → contains sub s = true.
Proof.
  intros Hp. destruct s; unfold contains; fold contains; rewrite Hp;
    reflexivity.
Qed.

Lemma contains_here (s t : string) : contains s (s +:+ t) = true.
Proof. apply contains_prefix, prefix_app. Qed.

Lemma contains_end (s : string) : contains s s = true.
Proof.
  assert (Hp : String.prefix s s = true).
  { induction s as [|a s IH]; simpl; [reflexivity|].
    destruct (Ascii.ascii_dec a a) as [_|Hne]; [exact IH|].
    exfalso; apply Hne; reflexivity. }
  apply contains_prefix, Hp.
Qed.

Lemma contains_app_r (sub s t : string) :
  contains sub t = true → contains sub (s +:+ t) = true.
Proof.
  intros Ht. induction s as [|a s IH].
  - exact Ht.
  - unfold String.append; fold String.append.
    simpl. rewrite IH. apply orb_true_r.
Qed.

Lemma contains_app_l (sub s t : string) :
  contains sub s = true → contains sub (s +:+ t) = true.
Proof.
  induction s as [|a s IH]; intros Hs.
  - unfold contains in Hs. rewrite orb_false_r in Hs.
    destruct sub; [|discriminate Hs].
    apply (contains_here "" t).
  - unfold contains in Hs; fold contains in Hs.
    apply orb_true_iff in Hs as [Hp|Hr].
    + apply contains_prefix, prefix_app_l, Hp.
    + change (String a s +:+ t) with (String a (s +:+ t)).
      unfold contains; fold contains.
      rewrite (IH Hr). apply orb_true_r.
Qed.

(** Finds a piece of context in a message put together with [+:+]. *)
Ltac mentioned :=
  repeat first
    [ apply contains_here
    | apply contains_end
    | apply contains_app_l; vm_compute; reflexivity
    | apply contains_app_r ].

Ltac all_mentioned :=
  repeat (constructor; [solve [mentioned]|]); constructor.

(** Runs the sequencing of [Op] on a world. *)
Ltac step_op :=
  unfold mbind, Op_bind, mret, Op_ret, getData, Printf, SetId, Set_,
    request, fail; cbn [fst snd data calls logs].

Lemma not_found_false (err : error) :
  err ≠ ErrResourceNotFound → isErrResourceNotFound err = false.
Proof. destruct err; [congruence|reflexivity]. Qed.

(** *** Team access *)

Section TeamAccessFailures.

Variable tfeClient : Client.
Variable w : World.
Variable err : error.
Hypothesis other : err ≠ ErrResourceNotFound.

Let d := data w.
Let id := ResourceData.Id (data w).

Lemma team_access_read_failure :
  TeamAccess_Read tfeClient id = Err err →
  surfaced (resourceTFETeamAccessRead tfeClient w)
    ["team access"; id; Error err].
Proof using other.
  intros Hr. unfold surfaced, resourceTFETeamAccessRead. step_op.
  fold id. rewrite Hr, (not_found_false err other). step_op.
  eexists. split; [reflexivity|]. all_mentioned.
Qed.

Lemma team_access_update_failure :
  TeamAccess_Update tfeClient id (teamAccessUpdateOptions d) = Err err →
  surfaced (resourceTFETeamAccessUpdate tfeClient w)
    ["team access"; id; Error err].
Proof.
  intros Hr. unfold surfaced, resourceTFETeamAccessUpdate. step_op.
  fold id d. rewrite Hr. step_op.
  eexists. split; [reflexivity|]. all_mentioned.
Qed.

Lemma team_access_delete_failure :
  TeamAccess_Remove tfeClient id = Some err →
  surfaced (resourceTFETeamAccessDelete tfeClient w)
    ["team access"; id; Error err].
Proof using other.
  intros Hr. unfold surfaced, resourceTFETeamAccessDelete. step_op.
  fold id. rewrite Hr, (not_found_false err other). step_op.
  eexists. split; [reflexivity|]. all_mentioned.
Qed.

Let access := ResourceData.GetString (data w) "access".
Let workspaceID := ResourceData.GetString (data w) "workspace_id".
Let teamID := ResourceData.GetString (data w) "team_id".

Lemma team_access_create_workspace_failure :
  Workspaces_ReadByID tfeClient workspaceID = Err err →
  surfaced (resourceTFETeamAccessCreate tfeClient w)
    ["workspace"; workspaceID; Error err].
Proof.
  intros Hr. unfold surfaced, resourceTFETeamAccessCreate. step_op.
  fold workspaceID. rewrite Hr. step_op.
  eexists. split; [reflexivity|]. all_mentioned.
Qed.

Lemma team_access_create_team_failure (ws : Workspace) :
  Workspaces_ReadByID tfeClient workspaceID = Ok ws →
  Teams_Read tfeClient teamID = Err err →
  surfaced (resourceTFETeamAccessCreate tfeClient w)
    ["team"; teamID; Error err].
Proof.
  intros Hws Hr. unfold surfaced, resourceTFETeamAccessCreate. step_op.
  fold workspaceID teamID. rewrite Hws. step_op. rewrite Hr. step_op.
  eexists. split; [reflexivity|]. all_mentioned.
Qed.

Lemma team_access_create_add_failure (ws : Workspace) (tm : Team) :
  Workspaces_ReadByID tfeClient workspaceID = Ok ws →
  Teams_Read tfeClient teamID = Ok tm →
  TeamAccess_Add tfeClient (teamAccessAddOptions d access tm ws)
    = Err err →
  surfaced (resourceTFETeamAccessCreate tfeClient w)
    ["team"; tm_Name tm; access; "access to workspace"; ws_Name ws;
     Error err].
Proof.
  intros Hws Htm Hr. unfold surfaced, resourceTFETeamAccessCreate. step_op.
  fold workspaceID teamID access d.
  rewrite Hws. step_op. rewrite Htm. step_op. rewrite Hr. step_op.
  eexists. split; [reflexivity|]. all_mentioned.
Qed.

Lemma team_access_create_read_failure
    (ws : Workspace) (tm : Team) (tmAccess : TeamAccess) :
  Workspaces_ReadByID tfeClient workspaceID = Ok ws →
  Teams_Read tfeClient teamID = Ok tm →
  TeamAccess_Add tfeClient (teamAccessAddOptions d access tm ws)
    = Ok tmAccess →
  TeamAccess_Read tfeClient (ta_ID tmAccess) = Err err →
  surfaced (resourceTFETeamAccessCreate tfeClient w)
    ["team access"; ta_ID tmAccess; Error err].
Proof using other.
  intros Hws Htm Hadd Hr.
  unfold surfaced, resourceTFETeamAccessCreate. step_op.
  fold workspaceID teamID access d.
  rewrite Hws. step_op. rewrite Htm. step_op. rewrite Hadd. step_op.
  unfold resourceTFETeamAccessRead. step_op.
  unfold ResourceData.Id, ResourceData.SetId; cbn [ResourceData.id].
  rewrite Hr, (not_found_false err other). step_op.
  eexists. split; [reflexivity|]. all_mentioned.
Qed.

End TeamAccessFailures.

(** *** Notification configuration *)

(** The create function up to its request, when both checks pass. *)
Lemma notification_create_request (tfeClient : Client) (w : World) :
  workspaceMissing (data w) = false →
  tokenWithSlack (data w) = false →
  resourceTFENotificationConfigurationCreate tfeClient w =
  (Printf ("[DEBUG] Create notification configuration: "
           +:+ ResourceData.GetString (data w) "name");;
   r ← request
         (CallNotificationConfigurationsCreate (workspaceIDOf (data w))
            (notificationCreateOptions (data w)))
         (NotificationConfigurations_Create tfeClient
            (workspaceIDOf (data w)) (notificationCreateOptions (data w)));
   match r with
   | Err err =>
       fail (Errorf ("Error creating notification configuration "
                     +:+ ResourceData.GetString (data w) "name"
                     +:+ ": " +:+ Error err))
   | Ok notificationConfiguration =>
       SetId (nc_ID notificationConfiguration);;
       resourceTFENotificationConfigurationRead tfeClient
   end) w.
Proof.
  unfold workspaceMissing, tokenWithSlack, workspaceIDOf,
    notificationCreateOptions.
  intros Hws Htok.
  unfold resourceTFENotificationConfigurationCreate.
  unfold mbind at 1, Op_bind at 1, getData. cbn [fst snd].
  destruct (ResourceData.GetOk (data w) "workspace_external_id")
    as [v1 ok1].
  destruct (ResourceData.GetOk (data w) "workspace_id") as [v2 ok2].
  cbn [fst snd] in *. rewrite Hws, Htok. reflexivity.
Qed.

(** The update function up to its request, when the check passes. *)
Lemma notification_update_request (tfeClient : Client) (w : World) :
  tokenWithSlack (data w) = false →
  resourceTFENotificationConfigurationUpdate tfeClient w =
  (Printf ("[DEBUG] Update notification configuration: "
           +:+ ResourceData.Id (data w));;
   r ← request
         (CallNotificationConfigurationsUpdate (ResourceData.Id (data w))
            (notificationUpdateOptions (data w)))
         (NotificationConfigurations_Update tfeClient
            (ResourceData.Id (data w)) (notificationUpdateOptions (data w)));
   match r with
   | Err err =>
       fail (Errorf ("Error updating notification configuration "
                     +:+ ResourceData.Id (data w) +:+ ": " +:+ Error err))
   | Ok _ => resourceTFENotificationConfigurationRead tfeClient
   end) w.
Proof.
  unfold tokenWithSlack, notificationUpdateOptions.
  intros Htok.
  unfold resourceTFENotificationConfigurationUpdate.
  unfold mbind at 1, Op_bind at 1, getData. cbn [fst snd].
  rewrite Htok. reflexivity.
Qed.

Section NotificationFailures.

Variable tfeClient : Client.
Variable w : World.
Variable err : error.
Hypothesis other : err ≠ ErrResourceNotFound.

Let d := data w.
Let id := ResourceData.Id (data w).
Let name := ResourceData.GetString (data w) "name".

Lemma notification_read_failure :
  NotificationConfigurations_Read tfeClient id = Err err →
  surfaced (resourceTFENotificationConfigurationRead tfeClient w)
    ["notification configuration"; id; Error err].
Proof using other.
  intros Hr.
  unfold surfaced, resourceTFENotificationConfigurationRead. step_op.
  fold id. rewrite Hr, (not_found_false err other). step_op.
  eexists. split; [reflexivity|]. all_mentioned.
Qed.

Lemma notification_delete_failure :
  NotificationConfigurations_Delete tfeClient id = Some err →
  surfaced (resourceTFENotificationConfigurationDelete tfeClient w)
    ["notification configuration"; id; Error err].
Proof using other.
  intros Hr.
  unfold surfaced, resourceTFENotificationConfigurationDelete. step_op.
  fold id. rewrite Hr, (not_found_false err other). step_op.
  eexists. split; [reflexivity|]. all_mentioned.
Qed.

Lemma notification_create_failure :
  workspaceMissing d = false →
  tokenWithSlack d = false →
  NotificationConfigurations_Create tfeClient (workspaceIDOf d)
    (notificationCreateOptions d) = Err err →
  surfaced (resourceTFENotificationConfigurationCreate tfeClient w)
    ["notification configuration"; name; Error err].
Proof.
  intros Hws Htok Hr.
  rewrite (notification_create_request tfeClient w Hws Htok).
  unfold surfaced. step_op. fold d name. rewrite Hr. step_op.
  eexists. split; [reflexivity|]. all_mentioned.
Qed.

Lemma notification_create_read_failure
    (notificationConfiguration : NotificationConfiguration) :
  workspaceMissing d = false →
  tokenWithSlack d = false →
  NotificationConfigurations_Create tfeClient (workspaceIDOf d)
    (notificationCreateOptions d) = Ok notificationConfiguration →
  NotificationConfigurations_Read tfeClient
    (nc_ID notificationConfiguration) = Err err →
  surfaced (resourceTFENotificationConfigurationCreate tfeClient w)
    ["notification configuration"; nc_ID notificationConfiguration;
     Error err].
Proof using other.
  intros Hws Htok Hc Hr.
  rewrite (notification_create_request tfeClient w Hws Htok).
  unfold surfaced. step_op. fold d name. rewrite Hc. step_op.
  unfold resourceTFENotificationConfigurationRead. step_op.
  unfold ResourceData.Id, ResourceData.SetId; cbn [ResourceData.id].
  rewrite Hr, (not_found_false err other). step_op.
  eexists. split; [reflexivity|]. all_mentioned.
Qed.

Lemma notification_update_failure :
  tokenWithSlack d = false →
  NotificationConfigurations_Update tfeClient id
    (notificationUpdateOptions d) = Err err →
  surfaced (resourceTFENotificationConfigurationUpdate tfeClient w)
    ["notification configuration"; id; Error err].
Proof.
  intros Htok Hr.
  rewrite (notification_update_request tfeClient w Htok).
  unfold surfaced. step_op. unfold id, d in *. rewrite Hr. step_op.
  eexists. split; [reflexivity|]. all_mentioned.
Qed.

Lemma notification_update_read_failure
    (notificationConfiguration : NotificationConfiguration) :
  tokenWithSlack d = false →
  NotificationConfigurations_Update tfeClient id
    (notificationUpdateOptions d) = Ok notificationConfiguration →
  NotificationConfigurations_Read tfeClient id = Err err →
  surfaced (resourceTFENotificationConfigurationUpdate tfeClient w)
    ["notification configuration"; id; Error err].
Proof using other.
  intros Htok Hu Hr.
  rewrite (notification_update_request tfeClient w Htok).
  unfold surfaced. step_op. unfold id, d in *. rewrite Hu. step_op.
  unfold resourceTFENotificationConfigurationRead. step_op.
  rewrite Hr, (not_found_false err other). step_op.
  eexists. split; [reflexivity|]. all_mentioned.
Qed.

End NotificationFailures.

(** *** The statements *)

(** C7: when the client answers the read or the delete of either
    resource with the not-found sentinel, the function succeeds: delete
    returns nil and leaves the resource data alone, read returns nil
    after it has cleared the ID. *)
Theorem not_found_succeeds (tfeClient : Client) (w : World) :
  (TeamAccess_Read tfeClient (ResourceData.Id (data w))
     = Err ErrResourceNotFound →
   ∃ w', resourceTFETeamAccessRead tfeClient w = (Ok tt, w')
         ∧ data w' = ResourceData.SetId (data w) "")
  ∧ (TeamAccess_Remove tfeClient (ResourceData.Id (data w))
       = Some ErrResourceNotFound →
     ∃ w', resourceTFETeamAccessDelete tfeClient w = (Ok tt, w')
           ∧ data w' = data w)
  ∧ (NotificationConfigurations_Read tfeClient (ResourceData.Id (data w))
       = Err ErrResourceNotFound →
     ∃ w', resourceTFENotificationConfigurationRead tfeClient w = (Ok tt, w')
           ∧ data w' = ResourceData.SetId (data w) "")
  ∧ (NotificationConfigurations_Delete tfeClient (ResourceData.Id (data w))
       = Some ErrResourceNotFound →
     ∃ w', resourceTFENotificationConfigurationDelete tfeClient w
             = (Ok tt, w')
           ∧ data w' = data w).
Proof.
  repeat split.
  - intros Hr. unfold resourceTFETeamAccessRead. step_op. rewrite Hr.
    step_op. eexists. split; reflexivity.
  - intros Hr. unfold resourceTFETeamAccessDelete. step_op. rewrite Hr.
    step_op. eexists. split; reflexivity.
  - intros Hr. unfold resourceTFENotificationConfigurationRead. step_op.
    rewrite Hr. step_op. eexists. split; reflexivity.
  - intros Hr. unfold resourceTFENotificationConfigurationDelete. step_op.
    rewrite Hr. step_op. eexists. split; reflexivity.
Qed.

Lemma not_found_succeeds_witness :
  (∃ w', resourceTFETeamAccessRead
           (sampleClient everyRequest ErrResourceNotFound) world_team_access
         = (Ok tt, w')
         ∧ data w' = ResourceData.SetId (data world_team_access) "")
  ∧ (∃ w', resourceTFETeamAccessDelete
             (sampleClient everyRequest ErrResourceNotFound)
             world_team_access
           = (Ok tt, w')
           ∧ data w' = data world_team_access)
  ∧ (∃ w', resourceTFENotificationConfigurationRead
             (sampleClient everyRequest ErrResourceNotFound)
             world_notification
           = (Ok tt, w')
           ∧ data w' = ResourceData.SetId (data world_notification) "")
  ∧ (∃ w', resourceTFENotificationConfigurationDelete
             (sampleClient everyRequest ErrResourceNotFound)
             world_notification
           = (Ok tt, w')
           ∧ data w' = data world_notification).
Proof.
  destruct (not_found_succeeds
              (sampleClient everyRequest ErrResourceNotFound)
              world_team_access) as (Hread & Hdelete & _).
  destruct (not_found_succeeds
              (sampleClient everyRequest ErrResourceNotFound)
              world_notification) as (_ & _ & Hnread & Hndelete).
  split; [exact (Hread eq_refl)|].
  split; [exact (Hdelete eq_refl)|].
  split; [exact (Hnread eq_refl)|].
  exact (Hndelete eq_refl).
Defined.




(** C10: a create or an update of a notification configuration whose
    token is not empty and whose destination type is "slack" returns an
    error before any request is made: the resource data, the requests
    made against the API and the log are as they were. *)
Theorem slack_token_rejected_before_any_request
    (tfeClient : Client) (w : World) :
  ResourceData.GetString (data w) "token" ≠ "" →
  ResourceData.GetString (data w) "destination_type" = "slack" →
  (∃ err : error,
     resourceTFENotificationConfigurationCreate tfeClient w = (Err err, w))
  ∧ (workspaceMissing (data w) = false →
     resourceTFENotificationConfigurationCreate tfeClient w =
     (Err (Errorf "Token cannot be set with destination_type of slack"), w))
  ∧ resourceTFENotificationConfigurationUpdate tfeClient w =
    (Err (Errorf "Token cannot be set with destination_type of slack"), w).
Proof.
  intros Htoken Hslack.
  assert (Hcheck :
            negb (ResourceData.GetString (data w) "token" =? "") &&
            (ResourceData.GetString (data w) "destination_type" =?
             NotificationDestinationTypeSlack) = true).
  { apply andb_true_iff. split.
    - apply negb_true_iff, String.eqb_neq, Htoken.
    - apply String.eqb_eq, Hslack. }
  assert (Hcreate :
            ∀ missing : bool,
              workspaceMissing (data w) = missing →
              resourceTFENotificationConfigurationCreate tfeClient w =
              (Err (if missing
                    then Errorf
                      "One of workspace_id or workspace_external_id must be set"
                    else Errorf
                      "Token cannot be set with destination_type of slack"),
               w)).
  { intros missing Hmissing.
    unfold resourceTFENotificationConfigurationCreate, workspaceMissing in *.
    unfold mbind at 1, Op_bind at 1, getData. cbn [fst snd].
    destruct (ResourceData.GetOk (data w) "workspace_external_id")
      as [v1 ok1].
    destruct (ResourceData.GetOk (data w) "workspace_id") as [v2 ok2].
    cbn [fst snd] in Hmissing. rewrite Hmissing.
    destruct missing; [reflexivity|].
    rewrite Hcheck, Hslack. reflexivity. }
  split; [|split].
  - eexists. apply (Hcreate _ eq_refl).
  - intros Hws. apply (Hcreate false Hws).
  - unfold resourceTFENotificationConfigurationUpdate.
    unfold mbind at 1, Op_bind at 1, getData. cbn [fst snd].
    rewrite Hcheck, Hslack. reflexivity.
Qed.

Lemma slack_token_rejected_witness :
  resourceTFENotificationConfigurationCreate
    (sampleClient everyRequest serverError) world_slack_token =
  (Err (Errorf "Token cannot be set with destination_type of slack"),
   world_slack_token)
  ∧ resourceTFENotificationConfigurationUpdate
      (sampleClient everyRequest serverError) world_slack_token =
    (Err (Errorf "Token cannot be set with destination_type of slack"),
     world_slack_token).
Proof.
  assert (Htoken :
            ResourceData.GetString (data world_slack_token) "token" ≠ "")
    by discriminate.
  destruct (slack_token_rejected_before_any_request
              (sampleClient everyRequest serverError) world_slack_token
              Htoken eq_refl)
    as (_ & Hcreate & Hupdate).
  split.
  - exact (Hcreate eq_refl).
  - exact Hupdate.
Defined.

(** * Further properties *)

(** ** The import ID *)

Lemma prefix_skip (sep s : string) :
  String.prefix sep s = true → s = sep +:+ skip (String.length sep) s.
Proof.
  revert s. induction sep as [|a sep IH]; intros s Hp.
  - reflexivity.
  - destruct s as [|b s]; simpl in Hp; [discriminate|].
    destruct (Ascii.ascii_dec a b) as [->|]; [|discriminate].
    change (String b sep +:+ skip (String.length (String b sep)) (String b s))
      with (String b (sep +:+ skip (String.length sep) s)).
    f_equal. apply IH, Hp.
Qed.

Lemma cut_Some (sep s before after : string) :
  cut sep s = Some (before, after) → s = before +:+ sep +:+ after.
Proof.
  revert before. induction s as [|c s IH]; intros before Hc.
  - unfold cut in Hc.
    destruct (String.prefix sep "") eqn:Hp; [|discriminate].
    injection Hc as <- <-. apply (prefix_skip sep ""), Hp.
  - unfold cut in Hc; fold cut in Hc.
    destruct (String.prefix sep (String c s)) eqn:Hp.
    + injection Hc as <- <-. apply (prefix_skip sep (String c s)), Hp.
    + destruct (cut sep s) as [[b a]|]; [|discriminate].
      injection Hc as <- <-.
      change (String c b +:+ sep +:+ a) with (String c (b +:+ sep +:+ a)).
      f_equal. apply IH. reflexivity.
Qed.

(** What is before the first separator holds no separator. *)
Lemma cut_before (sep s before after : string) :
  sep ≠ "" →
  cut sep s = Some (before, after) → contains sep before = false.
Proof.
  intros Hsep. revert before. induction s as [|c s IH]; intros before Hc.
  - unfold cut in Hc.
    destruct (String.prefix sep "") eqn:Hp; [|discriminate].
    injection Hc as <- <-. destruct sep; [congruence|reflexivity].
  - unfold cut in Hc; fold cut in Hc.
    destruct (String.prefix sep (String c s)) eqn:Hp.
    + injection Hc as <- <-. destruct sep; [congruence|reflexivity].
    + destruct (cut sep s) as [[b a]|] eqn:Hcut; [|discriminate].
      injection Hc as <- <-.
      unfold contains; fold contains.
      rewrite (IH b eq_refl), orb_false_r.
      destruct (String.prefix sep (String c b)) eqn:Hpb; [|reflexivity].
      apply (prefix_app_l _ _ (sep +:+ a)) in Hpb.
      change (String c b +:+ sep +:+ a) with (String c (b +:+ sep +:+ a))
        in Hpb.
      rewrite <- (cut_Some _ _ _ _ Hcut) in Hpb. congruence.
Qed.

(** A string that holds no separator is not cut. *)
Lemma cut_None (sep s : string) :
  contains sep s = false → cut sep s = None.
Proof.
  induction s as [|c s IH]; intros Hn.
  - unfold contains in Hn. rewrite orb_false_r in Hn.
    unfold cut. rewrite Hn. reflexivity.
  - unfold contains in Hn; fold contains in Hn.
    apply orb_false_iff in Hn as [Hp Hs].
    unfold cut; fold cut. rewrite Hp, (IH Hs). reflexivity.
Qed.

(** Cutting at a one-character separator finds the first piece. *)
Lemma cut_app (ch : Ascii.ascii) (before after : string) :
  contains (String ch "") before = false →
  cut (String ch "") (before +:+ String ch "" +:+ after)
  = Some (before, after).
Proof.
  induction before as [|c b IH]; intros Hn.
  - change ("" +:+ String ch "" +:+ after) with (String ch after).
    unfold cut. simpl.
    destruct (Ascii.ascii_dec ch ch) as [_|Hne]; [|congruence].
    destruct after; reflexivity.
  - unfold contains in Hn; fold contains in Hn.
    apply orb_false_iff in Hn as [Hp Hb].
    change (String c b +:+ String ch "" +:+ after)
      with (String c (b +:+ String ch "" +:+ after)).
    unfold cut; fold cut.
    assert (Hp' : String.prefix (String ch "")
                    (String c (b +:+ String ch "" +:+ after)) = false).
    { simpl in Hp |- *.
      destruct (Ascii.ascii_dec ch c); [|reflexivity].
      destruct b; discriminate Hp. }
    rewrite Hp', (IH Hb). reflexivity.
Qed.

(** Splitting at most three ways at "/" and what it gives. *)
Lemma SplitN_three (id s0 s1 s2 : string) :
  SplitN id "/" 3 = [s0; s1; s2] ↔
  id = s0 +:+ "/" +:+ s1 +:+ "/" +:+ s2
  ∧ contains "/" s0 = false ∧ contains "/" s1 = false.
Proof.
  split.
  - unfold SplitN. intros Hs.
    destruct (cut "/" id) as [[a r]|] eqn:H1; [|discriminate].
    destruct (cut "/" r) as [[b r']|] eqn:H2; [|discriminate].
    injection Hs as -> -> ->.
    apply cut_Some in H1 as Hid. apply cut_Some in H2 as Hr.
    split; [rewrite Hid, Hr; reflexivity|].
    split; [apply (cut_before "/" id s0 r); [discriminate|exact H1]|].
    apply (cut_before "/" r s1 s2); [discriminate|exact H2].
  - intros (-> & H0 & H1). unfold SplitN.
    rewrite (cut_app _ s0 _ H0), (cut_app _ s1 _ H1).
    reflexivity.
Qed.

(** [strings.SplitN] loses nothing: joining the pieces with the
    separator gives the string back, whatever the count (at least one)
    and the separator. *)
Lemma Join_SplitN (s sep : string) (n : nat) :
  Join (SplitN s sep (S n)) sep = s.
Proof.
  revert s. induction n as [|n IH]; intros s.
  - reflexivity.
  - change (SplitN s sep (S (S n)))
      with (match cut sep s with
            | Some (before, after) => before :: SplitN after sep (S n)
            | None => [s]
            end).
    destruct (cut sep s) as [[before after]|] eqn:Hc; [|reflexivity].
    specialize (IH after).
    destruct (SplitN after sep (S n)) as [|x l] eqn:Hs.
    + destruct n; simpl in Hs; [discriminate|].
      destruct (cut sep after) as [[? ?]|]; discriminate.
    + change (Join (before :: x :: l) sep)
        with (before +:+ sep +:+ Join (x :: l) sep).
      rewrite IH. symmetry. apply cut_Some, Hc.
Qed.

(** ** resourceTFETeamAccessImporter *)

(** The importer on an ID that splits in three. *)
Lemma importer_three
    (fetch : string → Client → result string) (tfeClient : Client)
    (w : World) (s0 s1 s2 : string) :
  SplitN (ResourceData.Id (data w)) "/" 3 = [s0; s1; s2] →
  resourceTFETeamAccessImporter fetch tfeClient w =
  match fetch (s0 +:+ "/" +:+ s1) tfeClient with
  | Ok workspace_id =>
      let d' :=
        ResourceData.SetId
          (ResourceData.Set_ (data w) "workspace_id"
             (VString workspace_id)).1 s2 in
      (Ok [d'], {| data := d'; calls := calls w; logs := logs w |})
  | Err err =>
      (Err (Errorf ("error retrieving workspace " +:+ s0
                    +:+ " from organization " +:+ s1
                    +:+ ": " +:+ Error err)), w)
  end.
Proof.
  intros Hs. unfold resourceTFETeamAccessImporter. step_op. rewrite Hs.
  destruct (fetch (s0 +:+ "/" +:+ s1) tfeClient); reflexivity.
Qed.

(** The importer on an ID that does not split in three. *)
Lemma importer_not_three
    (fetch : string → Client → result string) (tfeClient : Client)
    (w : World) :
  length (SplitN (ResourceData.Id (data w)) "/" 3) ≠ 3 →
  resourceTFETeamAccessImporter fetch tfeClient w =
  (Err (Errorf ("invalid team access import format: "
                +:+ ResourceData.Id (data w)
                +:+ " (expected <ORGANIZATION>/<WORKSPACE>/<TEAM ACCESS ID>)")),
   w).
Proof.
  intros Hlen. unfold resourceTFETeamAccessImporter. step_op.
  destruct (SplitN (ResourceData.Id (data w)) "/" 3)
    as [|s0 [|s1 [|s2 [|s3 l]]]]; try reflexivity.
  exfalso. apply Hlen. reflexivity.
Qed.

(** X1: the importer succeeds exactly on an ID of the form
    <organization>/<workspace>/<team access ID>, organization and
    workspace without a "/", whose workspace the helper resolves.  It
    then returns the one resource data, with workspace_id set to the
    resolved ID and the ID set to the third part (which keeps any
    further "/"); it makes no request of its own and writes no log. *)
Theorem importer_succeeds_iff
    (fetch : string → Client → result string) (tfeClient : Client)
    (w w' : World) (ds : list ResourceData.t) :
  resourceTFETeamAccessImporter fetch tfeClient w = (Ok ds, w') ↔
  ∃ organization workspace teamAccessID workspace_id : string,
    ResourceData.Id (data w) =
      organization +:+ "/" +:+ workspace +:+ "/" +:+ teamAccessID
    ∧ contains "/" organization = false
    ∧ contains "/" workspace = false
    ∧ fetch (organization +:+ "/" +:+ workspace) tfeClient = Ok workspace_id
    ∧ ds = [data w']
    ∧ w' = {| data :=
                {| ResourceData.id := teamAccessID;
                   ResourceData.state := ResourceData.state (data w);
                   ResourceData.attrs :=
                     <[ "workspace_id" := VString workspace_id ]>
                       (ResourceData.attrs (data w)) |};
              calls := calls w;
              logs := logs w |}.
Proof.
  split.
  - intros Hrun.
    destruct (decide (length (SplitN (ResourceData.Id (data w)) "/" 3) = 3))
      as [Hlen|Hlen].
    + destruct (SplitN (ResourceData.Id (data w)) "/" 3)
        as [|s0 [|s1 [|s2 [|s3 l]]]] eqn:Hs; try discriminate Hlen.
      rewrite (importer_three fetch tfeClient w s0 s1 s2 Hs) in Hrun.
      apply SplitN_three in Hs as (Hid & H0 & H1).
      destruct (fetch (s0 +:+ "/" +:+ s1) tfeClient) as [wid|err] eqn:Hf;
        [|discriminate Hrun].
      injection Hrun as <- <-.
      exists s0, s1, s2, wid. repeat split; assumption.
    + rewrite (importer_not_three fetch tfeClient w Hlen) in Hrun.
      discriminate Hrun.
  - intros (org & ws & tid & wid & Hid & H0 & H1 & Hf & -> & ->).
    assert (Hs : SplitN (ResourceData.Id (data w)) "/" 3 = [org; ws; tid]).
    { apply SplitN_three. repeat split; assumption. }
    rewrite (importer_three fetch tfeClient w org ws tid Hs), Hf.
    reflexivity.
Qed.

Lemma importer_succeeds_witness :
  ∃ w' : World,
    resourceTFETeamAccessImporter sampleFetch
      (sampleClient everyRequest serverError)
      (world_import "acme/prod/tws-1/x") = (Ok [data w'], w')
    ∧ ResourceData.Id (data w') = "tws-1/x".
Proof.
  eexists. split.
  - apply (importer_succeeds_iff sampleFetch
             (sampleClient everyRequest serverError)
             (world_import "acme/prod/tws-1/x")).
    exists "acme", "prod", "tws-1/x", "ws-1".
    split; [reflexivity|]. split; [reflexivity|]. split; [reflexivity|].
    split; [reflexivity|]. split; reflexivity.
  - reflexivity.
Defined.

(** X2: when the helper cannot resolve the workspace of a well-formed
    import ID, the importer returns an error and leaves the resource
    data alone.  The message names both parts of the path and the
    failure; it prints the organization after "workspace" and the
    workspace after "organization". *)
Theorem importer_unresolved_workspace
    (fetch : string → Client → result string) (tfeClient : Client)
    (w : World) (organization workspace teamAccessID : string)
    (err : error) :
  ResourceData.Id (data w) =
    organization +:+ "/" +:+ workspace +:+ "/" +:+ teamAccessID →
  contains "/" organization = false →
  contains "/" workspace = false →
  fetch (organization +:+ "/" +:+ workspace) tfeClient = Err err →
  resourceTFETeamAccessImporter fetch tfeClient w =
  (Err (Errorf ("error retrieving workspace " +:+ organization
                +:+ " from organization " +:+ workspace
                +:+ ": " +:+ Error err)), w).
Proof.
  intros Hid H0 H1 Hf.
  assert (Hs : SplitN (ResourceData.Id (data w)) "/" 3
               = [organization; workspace; teamAccessID]).
  { apply SplitN_three. repeat split; assumption. }
  rewrite (importer_three _ _ _ _ _ _ Hs), Hf. reflexivity.
Qed.

Lemma importer_unresolved_witness :
  resourceTFETeamAccessImporter sampleFetch
    (sampleClient everyRequest serverError)
    (world_import "acme/dev/tws-1") =
  (Err (Errorf ("error retrieving workspace acme from organization dev: "
                +:+ "internal server error")),
   world_import "acme/dev/tws-1").
Proof.
  apply (importer_unresolved_workspace sampleFetch
           (sampleClient everyRequest serverError)
           (world_import "acme/dev/tws-1") "acme" "dev" "tws-1" serverError);
    reflexivity.
Defined.

(** X3: an import ID with fewer than two "/" is refused with the
    invalid-format error, whatever the helper would answer, and the
    resource data is left alone. *)
Theorem importer_refuses_short_id
    (fetch : string → Client → result string) (tfeClient : Client)
    (w : World) (first second : string) :
  contains "/" first = false →
  contains "/" second = false →
  ResourceData.Id (data w) = first
  ∨ ResourceData.Id (data w) = first +:+ "/" +:+ second →
  resourceTFETeamAccessImporter fetch tfeClient w =
  (Err (Errorf ("invalid team access import format: "
                +:+ ResourceData.Id (data w)
                +:+ " (expected <ORGANIZATION>/<WORKSPACE>/<TEAM ACCESS ID>)")),
   w).
Proof.
  intros H0 H1 Hid. apply importer_not_three.
  destruct Hid as [-> | ->]; unfold SplitN.
  - rewrite (cut_None "/" first H0). discriminate.
  - rewrite (cut_app _ first second H0), (cut_None "/" second H1).
    discriminate.
Qed.

Lemma importer_refuses_short_witness :
  resourceTFETeamAccessImporter sampleFetch
    (sampleClient everyRequest serverError) (world_import "acme/prod") =
  (Err (Errorf ("invalid team access import format: acme/prod"
                +:+ " (expected <ORGANIZATION>/<WORKSPACE>/<TEAM ACCESS ID>)")),
   world_import "acme/prod").
Proof.
  apply (importer_refuses_short_id sampleFetch
           (sampleClient everyRequest serverError)
           (world_import "acme/prod") "acme" "prod").
  - reflexivity.
  - reflexivity.
  - right. reflexivity.
Defined.

(** ** The reconciler and the schema *)

(** X4: every access level the schema lets the configuration set
    ("admin", "read", "plan", "write"; "custom" is refused) makes the
    reconciler mark the permissions as computed when access is set and
    changed to it: a change of access in the configuration always
    discards the permissions of the prior state. *)
Theorem validated_access_change_recomputes
    {D : Type} `{DiffContext D} (d : D) (v o : value) (new : string) :
  GetOk d "access" = (v, true) →
  HasChange d "access" = true →
  GetChange d "access" = (o, VString new) →
  validateAccess new = None →
  validateAccess "custom" ≠ None
  ∧ setCustomOrComputedPermissions d =
      Returned ((SetNewComputed d "permissions").1, None)
  ∧ decision d = Returned [MarkComputed "permissions"].
Proof.
  intros Hok Hch Hget Hval.
  split; [discriminate|].
  assert (Hnew : (new =? "custom") = false).
  { destruct (String.eqb_spec new "custom") as [->|]; [|reflexivity].
    vm_compute in Hval. discriminate Hval. }
  unfold decision, setCustomOrComputedPermissions; simpl.
  rewrite Hok, Hch, Hget, Hnew; simpl.
  destruct (SetNewComputed d "permissions"); split; reflexivity.
Qed.

Lemma validated_access_change_witness :
  validateAccess "custom" ≠ None
  ∧ setCustomOrComputedPermissions diff_read_to_write =
      Returned ((SetNewComputed diff_read_to_write "permissions").1, None)
  ∧ decision diff_read_to_write = Returned [MarkComputed "permissions"].
Proof.
  apply (validated_access_change_recomputes
           diff_read_to_write (VString "write") (VString "read") "write");
    reflexivity.
Defined.

Lemma reconciled_idempotent_witness :
  reconciled (diffSetNew diff_runs_changed "access" (VString "custom")).1 =
  Some (diffSetNew diff_runs_changed "access" (VString "custom")).1.
Proof.
  apply (reconciled_idempotent diff_runs_changed). reflexivity.
Defined.

(** ** Reading back *)

Lemma lookupAttr_top (m : gmap string value) (key : string) :
  String.prefix "permissions.0." key = false →
  ResourceData.lookupAttr m key = m !! key.
Proof. intros Hp. unfold ResourceData.lookupAttr. rewrite Hp. reflexivity. Qed.

(** The read of a notification configuration the API knows. *)
Lemma notification_read_ok (tfeClient : Client) (w : World)
    (nc : NotificationConfiguration) :
  NotificationConfigurations_Read tfeClient (ResourceData.Id (data w))
    = Ok nc →
  resourceTFENotificationConfigurationRead tfeClient w =
  (Ok tt,
   {| data :=
        {| ResourceData.id := ResourceData.id (data w);
           ResourceData.state := ResourceData.state (data w);
           ResourceData.attrs :=
             <[ "workspace_id" := VString (nc_SubscribableID nc) ]>
             (<[ "workspace_external_id" := VString (nc_SubscribableID nc) ]>
             (<[ "url" := VString (nc_URL nc) ]>
             (<[ "triggers" := VSet (list_to_set (nc_Triggers nc)) ]>
             (<[ "name" := VString (nc_Name nc) ]>
             (<[ "enabled" := VBool (nc_Enabled nc) ]>
             (<[ "destination_type" := VString (nc_DestinationType nc) ]>
                (ResourceData.attrs (data w)))))))) |};
      calls :=
        (calls w ++
         [CallNotificationConfigurationsRead (ResourceData.Id (data w))])%list;
      logs :=
        (logs w ++
         ["[DEBUG] Read notification configuration: "
          +:+ ResourceData.Id (data w)])%list |}).
Proof.
  intros Hr. unfold resourceTFENotificationConfigurationRead. step_op.
  rewrite Hr. reflexivity.
Qed.

(** The read of a notification configuration the API no longer knows. *)
Lemma notification_read_gone (tfeClient : Client) (w : World) :
  NotificationConfigurations_Read tfeClient (ResourceData.Id (data w))
    = Err ErrResourceNotFound →
  resourceTFENotificationConfigurationRead tfeClient w =
  (Ok tt,
   {| data := ResourceData.SetId (data w) "";
      calls :=
        (calls w ++
         [CallNotificationConfigurationsRead (ResourceData.Id (data w))])%list;
      logs :=
        (logs w ++
         ["[DEBUG] Read notification configuration: "
          +:+ ResourceData.Id (data w);
          "[DEBUG] Notification configuration "
          +:+ ResourceData.Id (data w) +:+ " no longer exists"])%list |}).
Proof.
  intros Hr. unfold resourceTFENotificationConfigurationRead. step_op.
  rewrite Hr. unfold isErrResourceNotFound. cbv beta iota.
  cbn [data calls logs]. rewrite <- app_assoc. reflexivity.
Qed.

(** X5: a successful read of a notification configuration writes the
    seven attributes the API answers (both workspace attributes get the
    ID of the subscribable; the triggers are kept as a set, so they
    list back each once, in the order of the set and not of the
    answer) and nothing else: the token, which the API does not
    return, the ID and the prior state are as they were, and one
    request was made. *)
Theorem notification_read_writes_back (tfeClient : Client) (w : World)
    (nc : NotificationConfiguration) :
  NotificationConfigurations_Read tfeClient (ResourceData.Id (data w))
    = Ok nc →
  ∃ w' : World,
    resourceTFENotificationConfigurationRead tfeClient w = (Ok tt, w')
    ∧ ResourceData.GetString (data w') "destination_type"
      = nc_DestinationType nc
    ∧ ResourceData.GetBool (data w') "enabled" = nc_Enabled nc
    ∧ ResourceData.GetString (data w') "name" = nc_Name nc
    ∧ (NoDup (ResourceData.GetSetList (data w') "triggers")
       ∧ ∀ trigger : string,
           trigger ∈ ResourceData.GetSetList (data w') "triggers" ↔
           trigger ∈ nc_Triggers nc)
    ∧ ResourceData.GetString (data w') "url" = nc_URL nc
    ∧ ResourceData.GetString (data w') "workspace_external_id"
      = nc_SubscribableID nc
    ∧ ResourceData.GetString (data w') "workspace_id" = nc_SubscribableID nc
    ∧ ResourceData.attrs (data w') !! "token"
      = ResourceData.attrs (data w) !! "token"
    ∧ (∀ key : string,
         key ∉ ["destination_type"; "enabled"; "name"; "triggers"; "url";
                "workspace_external_id"; "workspace_id"] →
         ResourceData.attrs (data w') !! key
         = ResourceData.attrs (data w) !! key)
    ∧ ResourceData.Id (data w') = ResourceData.Id (data w)
    ∧ ResourceData.state (data w') = ResourceData.state (data w)
    ∧ calls w' =
      (calls w ++
       [CallNotificationConfigurationsRead (ResourceData.Id (data w))])%list.
Proof.
  intros Hr. eexists. split; [apply notification_read_ok, Hr|].
  cbn [data calls ResourceData.attrs ResourceData.state].
  unfold ResourceData.GetString, ResourceData.GetBool,
    ResourceData.GetSetList.
  rewrite !lookupAttr_top by reflexivity.
  cbn [ResourceData.attrs].
  split; [by simplify_map_eq|].
  split; [by simplify_map_eq|].
  split; [by simplify_map_eq|].
  split.
  { rewrite !lookup_insert_ne by discriminate. rewrite lookup_insert_eq.
    split; [apply NoDup_elements|].
    intros trigger. rewrite elem_of_elements, elem_of_list_to_set.
    reflexivity. }
  split; [by simplify_map_eq|].
  split; [by simplify_map_eq|].
  split; [by simplify_map_eq|].
  split; [by simplify_map_eq|].
  split.
  { intros key Hkey.
    rewrite !lookup_insert_ne; [reflexivity|..];
      intros <-; apply Hkey; repeat constructor. }
  split; [reflexivity|]. split; reflexivity.
Qed.

Lemma notification_read_writes_back_witness :
  ∃ w' : World,
    resourceTFENotificationConfigurationRead
      (mkClient (λ _, Err serverError) (λ _, Err serverError)
         (λ _, Err serverError) (λ _, Err serverError)
         (λ _ _, Err serverError) (λ _, None)
         (λ _ _, Err serverError) (λ _, Ok repeatedTriggers)
         (λ _ _, Err serverError) (λ _, None))
      world_slack_token = (Ok tt, w')
    ∧ ResourceData.GetString (data w') "name" = "alerts"
    ∧ NoDup (ResourceData.GetSetList (data w') "triggers")
    ∧ "run:errored" ∈ ResourceData.GetSetList (data w') "triggers"
    ∧ "run:created" ∈ ResourceData.GetSetList (data w') "triggers"
    ∧ ResourceData.attrs (data w') !! "token" = Some (VString "s3cret").
Proof.
  destruct (notification_read_writes_back
              (mkClient (λ _, Err serverError) (λ _, Err serverError)
                 (λ _, Err serverError) (λ _, Err serverError)
                 (λ _ _, Err serverError) (λ _, None)
                 (λ _ _, Err serverError) (λ _, Ok repeatedTriggers)
                 (λ _ _, Err serverError) (λ _, None))
              world_slack_token repeatedTriggers eq_refl)
    as (w' & Hrun & _ & _ & Hname & [Hnodup Hin] & _ & _ & _ & Htoken & _).
  exists w'. split; [exact Hrun|]. split; [exact Hname|].
  split; [exact Hnodup|].
  split; [apply Hin; repeat constructor|].
  split; [apply Hin; repeat constructor|].
  rewrite Htoken. reflexivity.
Defined.

(** X6: refreshing twice is refreshing once: after a successful read of a
    notification configuration, a second read that gets the same answer
    leaves the resource data as the first read left it. *)
Theorem notification_read_twice (tfeClient : Client) (w : World)
    (nc : NotificationConfiguration) :
  NotificationConfigurations_Read tfeClient (ResourceData.Id (data w))
    = Ok nc →
  data (resourceTFENotificationConfigurationRead tfeClient
          (resourceTFENotificationConfigurationRead tfeClient w).2).2
  = data (resourceTFENotificationConfigurationRead tfeClient w).2.
Proof.
  intros Hr.
  rewrite (notification_read_ok tfeClient w nc Hr). cbn [snd].
  match goal with
  | |- context [resourceTFENotificationConfigurationRead tfeClient ?w1] =>
      rewrite (notification_read_ok tfeClient w1 nc Hr)
  end.
  cbn [snd data ResourceData.id ResourceData.state ResourceData.attrs].
  f_equal. apply map_eq. intros key.
  rewrite !lookup_insert. repeat case_decide; reflexivity.
Qed.

Lemma notification_read_twice_witness :
  data (resourceTFENotificationConfigurationRead
          (sampleClient (λ _, false) serverError)
          (resourceTFENotificationConfigurationRead
             (sampleClient (λ _, false) serverError) world_notification).2).2
  = data (resourceTFENotificationConfigurationRead
            (sampleClient (λ _, false) serverError) world_notification).2.
Proof.
  apply (notification_read_twice (sampleClient (λ _, false) serverError)
           world_notification sampleNotificationConfiguration).
  reflexivity.
Defined.

(** ** Creating and updating a notification configuration *)

(** After the create request succeeded the function sets the ID and
    reads. *)
Lemma notification_create_then_read (tfeClient : Client) (w : World)
    (nc : NotificationConfiguration) :
  workspaceMissing (data w) = false →
  tokenWithSlack (data w) = false →
  NotificationConfigurations_Create tfeClient (workspaceIDOf (data w))
    (notificationCreateOptions (data w)) = Ok nc →
  resourceTFENotificationConfigurationCreate tfeClient w =
  resourceTFENotificationConfigurationRead tfeClient
    {| data := ResourceData.SetId (data w) (nc_ID nc);
       calls :=
         (calls w ++
          [CallNotificationConfigurationsCreate (workspaceIDOf (data w))
             (notificationCreateOptions (data w))])%list;
       logs :=
         (logs w ++
          ["[DEBUG] Create notification configuration: "
           +:+ ResourceData.GetString (data w) "name"])%list |}.
Proof.
  intros Hws Htok Hc.
  rewrite (notification_create_request tfeClient w Hws Htok).
  step_op. rewrite Hc. reflexivity.
Qed.

(** After the update request succeeded the function reads. *)
Lemma notification_update_then_read (tfeClient : Client) (w : World)
    (nc : NotificationConfiguration) :
  tokenWithSlack (data w) = false →
  NotificationConfigurations_Update tfeClient (ResourceData.Id (data w))
    (notificationUpdateOptions (data w)) = Ok nc →
  resourceTFENotificationConfigurationUpdate tfeClient w =
  resourceTFENotificationConfigurationRead tfeClient
    {| data := data w;
       calls :=
         (calls w ++
          [CallNotificationConfigurationsUpdate (ResourceData.Id (data w))
             (notificationUpdateOptions (data w))])%list;
       logs :=
         (logs w ++
          ["[DEBUG] Update notification configuration: "
           +:+ ResourceData.Id (data w)])%list |}.
Proof.
  intros Htok Hu.
  rewrite (notification_update_request tfeClient w Htok).
  step_op. rewrite Hu. reflexivity.
Qed.



(** X8: when the API accepts the create of a notification configuration
    but no longer knows it at the read that follows, the create still
    returns nil: the resource data is left without an ID and with the
    attributes as configured. *)
Theorem notification_create_then_gone (tfeClient : Client) (w : World)
    (created : NotificationConfiguration) :
  workspaceMissing (data w) = false →
  tokenWithSlack (data w) = false →
  NotificationConfigurations_Create tfeClient (workspaceIDOf (data w))
    (notificationCreateOptions (data w)) = Ok created →
  NotificationConfigurations_Read tfeClient (nc_ID created)
    = Err ErrResourceNotFound →
  ∃ w' : World,
    resourceTFENotificationConfigurationCreate tfeClient w = (Ok tt, w')
    ∧ ResourceData.Id (data w') = ""
    ∧ ResourceData.attrs (data w') = ResourceData.attrs (data w).
Proof.
  intros Hws Htok Hc Hr.
  rewrite (notification_create_then_read tfeClient w created Hws Htok Hc).
  rewrite notification_read_gone by exact Hr.
  eexists. split; [reflexivity|]. split; reflexivity.
Qed.

Lemma notification_create_then_gone_witness :
  ∃ w' : World,
    resourceTFENotificationConfigurationCreate
      (sampleClient onlyNotificationConfigurationsRead ErrResourceNotFound)
      world_notification = (Ok tt, w')
    ∧ ResourceData.Id (data w') = ""
    ∧ ResourceData.attrs (data w')
      = ResourceData.attrs (data world_notification).
Proof.
  apply (notification_create_then_gone
           (sampleClient onlyNotificationConfigurationsRead
              ErrResourceNotFound)
           world_notification sampleNotificationConfiguration);
    reflexivity.
Defined.

(** X9: a create of a notification configuration with neither
    workspace_id nor workspace_external_id set returns an error before
    anything else is looked at: no request is made and nothing is
    written, whatever the token and the destination type. *)
Theorem notification_create_needs_workspace (tfeClient : Client) (w : World) :
  workspaceMissing (data w) = true →
  resourceTFENotificationConfigurationCreate tfeClient w =
  (Err (Errorf "One of workspace_id or workspace_external_id must be set"),
   w).
Proof.
  unfold workspaceMissing. intros Hws.
  unfold resourceTFENotificationConfigurationCreate.
  unfold mbind at 1, Op_bind at 1, getData. cbn [fst snd].
  destruct (ResourceData.GetOk (data w) "workspace_external_id")
    as [v1 ok1].
  destruct (ResourceData.GetOk (data w) "workspace_id") as [v2 ok2].
  cbn [fst snd] in Hws. rewrite Hws. reflexivity.
Qed.

Lemma notification_create_needs_workspace_witness :
  resourceTFENotificationConfigurationCreate
    (sampleClient (λ _, false) serverError) world_no_workspace =
  (Err (Errorf "One of workspace_id or workspace_external_id must be set"),
   world_no_workspace).
Proof.
  apply (notification_create_needs_workspace
           (sampleClient (λ _, false) serverError) world_no_workspace).
  reflexivity.
Defined.

Lemma GetOk_asString (d : ResourceData.t) (key : string) :
  (ResourceData.GetOk d key).2 = true →
  ResourceData.asString (ResourceData.GetOk d key).1
  = ResourceData.GetString d key.
Proof.
  unfold ResourceData.GetOk, ResourceData.GetString.
  destruct (ResourceData.lookupAttr (ResourceData.attrs d) key) as [v|];
    [|discriminate].
  intros _. destruct v; reflexivity.
Qed.

(** X10: when workspace_external_id is set, the create request goes to
    that workspace, whatever workspace_id holds; workspace_id is used
    only when workspace_external_id is not set. *)
Theorem notification_create_prefers_external_id
    (tfeClient : Client) (w : World) :
  tokenWithSlack (data w) = false →
  ((ResourceData.GetOk (data w) "workspace_external_id").2 = true →
   ∃ rest : list Call,
     calls (resourceTFENotificationConfigurationCreate tfeClient w).2 =
     (calls w ++
      CallNotificationConfigurationsCreate
        (ResourceData.GetString (data w) "workspace_external_id")
        (notificationCreateOptions (data w)) :: rest)%list)
  ∧ ((ResourceData.GetOk (data w) "workspace_external_id").2 = false →
     (ResourceData.GetOk (data w) "workspace_id").2 = true →
     ∃ rest : list Call,
       calls (resourceTFENotificationConfigurationCreate tfeClient w).2 =
       (calls w ++
        CallNotificationConfigurationsCreate
          (ResourceData.GetString (data w) "workspace_id")
          (notificationCreateOptions (data w)) :: rest)%list).
Proof.
  intros Htok.
  assert (Hrun :
            workspaceMissing (data w) = false →
            ∃ rest : list Call,
              calls (resourceTFENotificationConfigurationCreate tfeClient w).2
              = (calls w ++
                 CallNotificationConfigurationsCreate (workspaceIDOf (data w))
                   (notificationCreateOptions (data w)) :: rest)%list).
  { intros Hws.
    destruct (NotificationConfigurations_Create tfeClient
                (workspaceIDOf (data w)) (notificationCreateOptions (data w)))
      as [nc|err] eqn:Hc.
    - rewrite (notification_create_then_read tfeClient w nc Hws Htok Hc).
      unfold resourceTFENotificationConfigurationRead. step_op.
      destruct (NotificationConfigurations_Read tfeClient
                  (ResourceData.Id (ResourceData.SetId (data w) (nc_ID nc))))
        as [nc'|err].
      + eexists. cbn [snd calls]. rewrite <- app_assoc. reflexivity.
      + destruct (isErrResourceNotFound err);
          eexists; cbn [snd calls]; rewrite <- app_assoc; reflexivity.
    - rewrite (notification_create_request tfeClient w Hws Htok).
      step_op. rewrite Hc. exists []. reflexivity. }
  split.
  - intros Hext.
    destruct Hrun as [rest Hrest].
    { unfold workspaceMissing. rewrite Hext. reflexivity. }
    exists rest. rewrite Hrest. unfold workspaceIDOf.
    rewrite Hext, (GetOk_asString _ _ Hext). reflexivity.
  - intros Hext Hid.
    destruct Hrun as [rest Hrest].
    { unfold workspaceMissing. rewrite Hext, Hid. reflexivity. }
    exists rest. rewrite Hrest. unfold workspaceIDOf.
    rewrite Hext, (GetOk_asString _ _ Hid). reflexivity.
Qed.

Lemma notification_create_prefers_external_witness :
  ∃ rest : list Call,
    calls (resourceTFENotificationConfigurationCreate
             (sampleClient (λ _, false) serverError)
             world_both_workspaces).2 =
    CallNotificationConfigurationsCreate "ws-ext"
      (notificationCreateOptions (data world_both_workspaces)) :: rest.
Proof.
  destruct (notification_create_prefers_external_id
              (sampleClient (λ _, false) serverError) world_both_workspaces
              eq_refl) as [Hext _].
  exact (Hext eq_refl).
Defined.

(** X11: the update functions do not treat not-found apart: whatever
    error the update request fails with, the sentinel included, the
    function returns an error naming the resource, makes no further
    request (no read follows) and leaves the resource data as it was. *)
Theorem update_failure_keeps_data
    (tfeClient : Client) (w : World) (err : error) :
  (TeamAccess_Update tfeClient (ResourceData.Id (data w))
     (teamAccessUpdateOptions (data w)) = Err err →
   ∃ w' : World,
     resourceTFETeamAccessUpdate tfeClient w =
     (Err (Errorf ("Error updating team access "
                   +:+ ResourceData.Id (data w) +:+ ": " +:+ Error err)), w')
     ∧ data w' = data w
     ∧ calls w' =
       (calls w ++
        [CallTeamAccessUpdate (ResourceData.Id (data w))
           (teamAccessUpdateOptions (data w))])%list)
  ∧ (tokenWithSlack (data w) = false →
     NotificationConfigurations_Update tfeClient (ResourceData.Id (data w))
       (notificationUpdateOptions (data w)) = Err err →
     ∃ w' : World,
       resourceTFENotificationConfigurationUpdate tfeClient w =
       (Err (Errorf ("Error updating notification configuration "
                     +:+ ResourceData.Id (data w) +:+ ": " +:+ Error err)),
        w')
       ∧ data w' = data w
       ∧ calls w' =
         (calls w ++
          [CallNotificationConfigurationsUpdate (ResourceData.Id (data w))
             (notificationUpdateOptions (data w))])%list).
Proof.
  split.
  - intros Hu. unfold resourceTFETeamAccessUpdate. step_op. rewrite Hu.
    eexists. split; [reflexivity|]. split; reflexivity.
  - intros Htok Hu.
    rewrite (notification_update_request tfeClient w Htok).
    step_op. rewrite Hu.
    eexists. split; [reflexivity|]. split; reflexivity.
Qed.

Lemma update_failure_keeps_data_witness :
  (∃ w' : World,
     resourceTFETeamAccessUpdate
       (sampleClient everyRequest ErrResourceNotFound) world_team_access =
     (Err (Errorf "Error updating team access tws-1: resource not found"),
      w')
     ∧ data w' = data world_team_access)
  ∧ (∃ w' : World,
       resourceTFENotificationConfigurationUpdate
         (sampleClient everyRequest ErrResourceNotFound) world_notification =
       (Err (Errorf
               "Error updating notification configuration nc-1: resource not found"),
        w')
       ∧ data w' = data world_notification).
Proof.
  destruct (update_failure_keeps_data
              (sampleClient everyRequest ErrResourceNotFound)
              world_team_access ErrResourceNotFound) as [Hta _].
  destruct (update_failure_keeps_data
              (sampleClient everyRequest ErrResourceNotFound)
              world_notification ErrResourceNotFound) as [_ Hnc].
  destruct (Hta eq_refl) as (w1 & Hrun1 & Hdata1 & _).
  destruct (Hnc eq_refl eq_refl) as (w2 & Hrun2 & Hdata2 & _).
  split.
  - exists w1. split; [exact Hrun1|exact Hdata1].
  - exists w2. split; [exact Hrun2|exact Hdata2].
Defined.

(** X12: after an update request of a notification configuration that
    the API accepts, the function does what the read does: it returns
    what a read returns and leaves the resource data a read leaves.  The
    answer to the update request itself is not used. *)
Theorem notification_update_reads_back (tfeClient : Client) (w : World)
    (updated : NotificationConfiguration) :
  tokenWithSlack (data w) = false →
  NotificationConfigurations_Update tfeClient (ResourceData.Id (data w))
    (notificationUpdateOptions (data w)) = Ok updated →
  (resourceTFENotificationConfigurationUpdate tfeClient w).1
  = (resourceTFENotificationConfigurationRead tfeClient w).1
  ∧ data (resourceTFENotificationConfigurationUpdate tfeClient w).2
    = data (resourceTFENotificationConfigurationRead tfeClient w).2
  ∧ calls (resourceTFENotificationConfigurationUpdate tfeClient w).2
    = (calls w ++
       [CallNotificationConfigurationsUpdate (ResourceData.Id (data w))
          (notificationUpdateOptions (data w));
        CallNotificationConfigurationsRead (ResourceData.Id (data w))])%list.
Proof.
  intros Htok Hu.
  rewrite (notification_update_then_read tfeClient w updated Htok Hu).
  unfold resourceTFENotificationConfigurationRead. step_op.
  destruct (NotificationConfigurations_Read tfeClient
              (ResourceData.Id (data w))) as [nc|err].
  - cbn [fst snd data calls]. rewrite <- app_assoc.
    split; [reflexivity|]. split; reflexivity.
  - destruct (isErrResourceNotFound err);
      cbn [fst snd data calls]; rewrite <- app_assoc;
      (split; [reflexivity|]; split; reflexivity).
Qed.

Lemma notification_update_reads_back_witness :
  (resourceTFENotificationConfigurationUpdate
     (sampleClient (λ _, false) serverError) world_notification).1
  = (resourceTFENotificationConfigurationRead
       (sampleClient (λ _, false) serverError) world_notification).1
  ∧ data (resourceTFENotificationConfigurationUpdate
            (sampleClient (λ _, false) serverError) world_notification).2
    = data (resourceTFENotificationConfigurationRead
              (sampleClient (λ _, false) serverError) world_notification).2.
Proof.
  destruct (notification_update_reads_back
              (sampleClient (λ _, false) serverError) world_notification
              sampleNotificationConfiguration eq_refl eq_refl)
    as (Hresult & Hdata & _).
  split; [exact Hresult|exact Hdata].
Defined.

(** ** Team access: reading back *)

(** The read of a team access the API knows. *)
Lemma team_access_read_ok (tfeClient : Client) (w : World)
    (tmAccess : TeamAccess) :
  TeamAccess_Read tfeClient (ResourceData.Id (data w)) = Ok tmAccess →
  resourceTFETeamAccessRead tfeClient w =
  (Ok tt,
   {| data :=
        {| ResourceData.id := ResourceData.id (data w);
           ResourceData.state := ResourceData.state (data w);
           ResourceData.attrs :=
             <[ "team_id" :=
                  VString (match ta_Team tmAccess with
                           | Some team => tm_ID team
                           | None => ""
                           end) ]>
             (<[ "permissions" := VList (permissionsOf tmAccess) ]>
             (<[ "access" := VString (ta_Access tmAccess) ]>
                (ResourceData.attrs (data w)))) |};
      calls :=
        (calls w ++ [CallTeamAccessRead (ResourceData.Id (data w))])%list;
      logs :=
        (logs w ++
         ["[DEBUG] Read configuration of team access: "
          +:+ ResourceData.Id (data w)])%list |}).
Proof.
  intros Hr. unfold resourceTFETeamAccessRead. step_op. rewrite Hr.
  destruct (ta_Team tmAccess); reflexivity.
Qed.

(** The read of a team access the API no longer knows. *)
Lemma team_access_read_gone (tfeClient : Client) (w : World) :
  TeamAccess_Read tfeClient (ResourceData.Id (data w))
    = Err ErrResourceNotFound →
  resourceTFETeamAccessRead tfeClient w =
  (Ok tt,
   {| data := ResourceData.SetId (data w) "";
      calls :=
        (calls w ++ [CallTeamAccessRead (ResourceData.Id (data w))])%list;
      logs :=
        (logs w ++
         ["[DEBUG] Read configuration of team access: "
          +:+ ResourceData.Id (data w);
          "[DEBUG] Team access " +:+ ResourceData.Id (data w)
          +:+ " does no longer exist"])%list |}).
Proof.
  intros Hr. unfold resourceTFETeamAccessRead. step_op.
  rewrite Hr. unfold isErrResourceNotFound. cbv beta iota.
  cbn [data calls logs]. rewrite <- app_assoc. reflexivity.
Qed.

(** X13: a successful read of a team access writes the access level,
    one permissions block with the five permissions of the answer, and
    the team ID (the empty string when the answer has no team), and
    nothing else: workspace_id in particular, the ID and the prior state
    are as they were.  The fields of the block read back under
    permissions.0. *)
Theorem team_access_read_writes_back (tfeClient : Client) (w : World)
    (tmAccess : TeamAccess) :
  TeamAccess_Read tfeClient (ResourceData.Id (data w)) = Ok tmAccess →
  ∃ w' : World,
    resourceTFETeamAccessRead tfeClient w = (Ok tt, w')
    ∧ ResourceData.GetString (data w') "access" = ta_Access tmAccess
    ∧ ResourceData.attrs (data w') !! "permissions"
      = Some (VList [mkPermissions (ta_Runs tmAccess)
                       (ta_Variables tmAccess) (ta_StateVersions tmAccess)
                       (ta_SentinelMocks tmAccess)
                       (ta_WorkspaceLocking tmAccess)])
    ∧ ResourceData.GetString (data w') "permissions.0.runs"
      = ta_Runs tmAccess
    ∧ ResourceData.GetBool (data w') "permissions.0.workspace_locking"
      = ta_WorkspaceLocking tmAccess
    ∧ ResourceData.GetString (data w') "team_id"
      = match ta_Team tmAccess with
        | Some team => tm_ID team
        | None => ""
        end
    ∧ (∀ key : string,
         key ∉ ["access"; "permissions"; "team_id"] →
         ResourceData.attrs (data w') !! key
         = ResourceData.attrs (data w) !! key)
    ∧ ResourceData.Id (data w') = ResourceData.Id (data w)
    ∧ ResourceData.state (data w') = ResourceData.state (data w)
    ∧ calls w' =
      (calls w ++ [CallTeamAccessRead (ResourceData.Id (data w))])%list.
Proof.
  intros Hr. eexists. split; [apply team_access_read_ok, Hr|].
  cbn [data calls ResourceData.attrs ResourceData.state].
  split.
  { unfold ResourceData.GetString. rewrite lookupAttr_top by reflexivity.
    cbn [ResourceData.attrs]. by simplify_map_eq. }
  split; [by simplify_map_eq|].
  split.
  { unfold ResourceData.GetString, ResourceData.lookupAttr.
    cbn [ResourceData.attrs].
    replace (String.prefix "permissions.0." "permissions.0.runs")
      with true by reflexivity.
    rewrite lookup_insert_ne by discriminate.
    rewrite lookup_insert_eq. reflexivity. }
  split.
  { unfold ResourceData.GetBool, ResourceData.lookupAttr.
    cbn [ResourceData.attrs].
    replace (String.prefix "permissions.0."
               "permissions.0.workspace_locking")
      with true by reflexivity.
    rewrite lookup_insert_ne by discriminate.
    rewrite lookup_insert_eq. reflexivity. }
  split.
  { unfold ResourceData.GetString. rewrite lookupAttr_top by reflexivity.
    cbn [ResourceData.attrs]. by simplify_map_eq. }
  split.
  { intros key Hkey.
    rewrite !lookup_insert_ne; [reflexivity|..];
      intros <-; apply Hkey; repeat constructor. }
  repeat split.
Qed.

Lemma team_access_read_writes_back_witness :
  ∃ w' : World,
    resourceTFETeamAccessRead
      (mkClient (λ _, Err serverError) (λ _, Err serverError)
         (λ _, Err serverError) (λ _, Ok teamlessAccess)
         (λ _ _, Err serverError) (λ _, None)
         (λ _ _, Err serverError) (λ _, Err serverError)
         (λ _ _, Err serverError) (λ _, None))
      world_team_access = (Ok tt, w')
    ∧ ResourceData.GetString (data w') "access" = "custom"
    ∧ ResourceData.GetString (data w') "team_id" = ""
    ∧ ResourceData.attrs (data w') !! "workspace_id" = Some (VString "ws-1").
Proof.
  destruct (team_access_read_writes_back
              (mkClient (λ _, Err serverError) (λ _, Err serverError)
                 (λ _, Err serverError) (λ _, Ok teamlessAccess)
                 (λ _ _, Err serverError) (λ _, None)
                 (λ _ _, Err serverError) (λ _, Err serverError)
                 (λ _ _, Err serverError) (λ _, None))
              world_team_access teamlessAccess eq_refl)
    as (w' & Hrun & Haccess & _ & _ & _ & Hteam & Hframe & _).
  exists w'. split; [exact Hrun|].
  split; [exact Haccess|]. split; [exact Hteam|].
  rewrite Hframe.
  - reflexivity.
  - intros Hin. apply elem_of_cons in Hin as [Hin|Hin]; [discriminate Hin|].
    apply elem_of_cons in Hin as [Hin|Hin]; [discriminate Hin|].
    apply elem_of_cons in Hin as [Hin|Hin]; [discriminate Hin|].
    apply elem_of_nil in Hin. exact Hin.
Defined.

(** X14: refreshing a team access twice is refreshing it once: a second
    read that gets the same answer leaves the resource data as the
    first read left it. *)
Theorem team_access_read_twice (tfeClient : Client) (w : World)
    (tmAccess : TeamAccess) :
  TeamAccess_Read tfeClient (ResourceData.Id (data w)) = Ok tmAccess →
  data (resourceTFETeamAccessRead tfeClient
          (resourceTFETeamAccessRead tfeClient w).2).2
  = data (resourceTFETeamAccessRead tfeClient w).2.
Proof.
  intros Hr.
  rewrite (team_access_read_ok tfeClient w tmAccess Hr). cbn [snd].
  match goal with
  | |- context [resourceTFETeamAccessRead tfeClient ?w1] =>
      rewrite (team_access_read_ok tfeClient w1 tmAccess Hr)
  end.
  cbn [snd data ResourceData.id ResourceData.state ResourceData.attrs].
  f_equal. apply map_eq. intros key.
  rewrite !lookup_insert. repeat case_decide; reflexivity.
Qed.

Lemma team_access_read_twice_witness :
  data (resourceTFETeamAccessRead (sampleClient (λ _, false) serverError)
          (resourceTFETeamAccessRead
             (sampleClient (λ _, false) serverError) world_team_access).2).2
  = data (resourceTFETeamAccessRead
            (sampleClient (λ _, false) serverError) world_team_access).2.
Proof.
  apply (team_access_read_twice (sampleClient (λ _, false) serverError)
           world_team_access sampleTeamAccess).
  reflexivity.
Defined.

(** ** Team access: creating *)

(** X15: a create of a team access whose workspace or team cannot be
    retrieved, for whatever reason (the not-found sentinel included),
    or whose grant the API refuses, returns an error without going
    further: no grant is requested after a failed retrieval, nothing is
    read back after a refused grant, and the resource data keeps no
    ID and no written attribute. *)
Theorem team_access_create_stops_at_failure
    (tfeClient : Client) (w : World) (err : error) :
  let workspaceID := ResourceData.GetString (data w) "workspace_id" in
  let teamID := ResourceData.GetString (data w) "team_id" in
  let access := ResourceData.GetString (data w) "access" in
  (Workspaces_ReadByID tfeClient workspaceID = Err err →
   resourceTFETeamAccessCreate tfeClient w =
   (Err (Errorf ("Error retrieving workspace " +:+ workspaceID
                 +:+ ": " +:+ Error err)),
    {| data := data w;
       calls := (calls w ++ [CallWorkspacesReadByID workspaceID])%list;
       logs := logs w |}))
  ∧ (∀ ws : Workspace,
       Workspaces_ReadByID tfeClient workspaceID = Ok ws →
       Teams_Read tfeClient teamID = Err err →
       resourceTFETeamAccessCreate tfeClient w =
       (Err (Errorf ("Error retrieving team " +:+ teamID
                     +:+ ": " +:+ Error err)),
        {| data := data w;
           calls :=
             (calls w ++
              [CallWorkspacesReadByID workspaceID; CallTeamsRead teamID])%list;
           logs := logs w |}))
  ∧ (∀ (ws : Workspace) (tm : Team),
       Workspaces_ReadByID tfeClient workspaceID = Ok ws →
       Teams_Read tfeClient teamID = Ok tm →
       TeamAccess_Add tfeClient (teamAccessAddOptions (data w) access tm ws)
         = Err err →
       ∃ w' : World,
         resourceTFETeamAccessCreate tfeClient w =
         (Err (Errorf ("Error giving team " +:+ tm_Name tm +:+ " "
                       +:+ access +:+ " access to workspace "
                       +:+ ws_Name ws +:+ ": " +:+ Error err)), w')
         ∧ data w' = data w
         ∧ calls w' =
           (calls w ++
            [CallWorkspacesReadByID workspaceID; CallTeamsRead teamID;
             CallTeamAccessAdd
               (teamAccessAddOptions (data w) access tm ws)])%list).
Proof.
  intros workspaceID teamID access.
  split; [|split].
  - intros Hws. unfold resourceTFETeamAccessCreate. step_op.
    fold workspaceID. rewrite Hws. reflexivity.
  - intros ws Hws Htm. unfold resourceTFETeamAccessCreate. step_op.
    fold workspaceID teamID. rewrite Hws. step_op. rewrite Htm.
    step_op. rewrite <- app_assoc. reflexivity.
  - intros ws tm Hws Htm Hadd. unfold resourceTFETeamAccessCreate. step_op.
    fold workspaceID teamID access.
    rewrite Hws. step_op. rewrite Htm. step_op. rewrite Hadd. step_op.
    eexists. split; [reflexivity|]. split; [reflexivity|].
    cbn [calls]. rewrite <- !app_assoc. reflexivity.
Qed.

Lemma team_access_create_stops_witness :
  resourceTFETeamAccessCreate
    (sampleClient everyRequest ErrResourceNotFound) world_team_access =
  (Err (Errorf "Error retrieving workspace ws-1: resource not found"),
   {| data := data world_team_access;
      calls := [CallWorkspacesReadByID "ws-1"];
      logs := [] |})
  ∧ resourceTFETeamAccessCreate
      (sampleClient onlyTeamsRead ErrResourceNotFound) world_team_access =
    (Err (Errorf "Error retrieving team team-1: resource not found"),
     {| data := data world_team_access;
        calls := [CallWorkspacesReadByID "ws-1"; CallTeamsRead "team-1"];
        logs := [] |})
  ∧ (∃ w' : World,
       resourceTFETeamAccessCreate
         (sampleClient onlyTeamAccessAdd serverError) world_team_access =
       (Err (Errorf
               ("Error giving team devs write access to workspace prod: "
                +:+ "internal server error")), w')
       ∧ data w' = data world_team_access).
Proof.
  destruct (team_access_create_stops_at_failure
              (sampleClient everyRequest ErrResourceNotFound)
              world_team_access ErrResourceNotFound) as (Hws & _).
  destruct (team_access_create_stops_at_failure
              (sampleClient onlyTeamsRead ErrResourceNotFound)
              world_team_access ErrResourceNotFound) as (_ & Htm & _).
  destruct (team_access_create_stops_at_failure
              (sampleClient onlyTeamAccessAdd serverError)
              world_team_access serverError) as (_ & _ & Hadd).
  split; [exact (Hws eq_refl)|].
  split; [exact (Htm sampleWorkspace eq_refl eq_refl)|].
  destruct (Hadd sampleWorkspace sampleTeam eq_refl eq_refl eq_refl)
    as (w' & Hrun & Hdata & _).
  exists w'. split; [exact Hrun|exact Hdata].
Defined.

(** After the grant succeeded the function sets the ID and reads. *)
Lemma team_access_create_then_read (tfeClient : Client) (w : World)
    (ws : Workspace) (tm : Team) (tmAccess : TeamAccess) :
  Workspaces_ReadByID tfeClient
    (ResourceData.GetString (data w) "workspace_id") = Ok ws →
  Teams_Read tfeClient (ResourceData.GetString (data w) "team_id") = Ok tm →
  TeamAccess_Add tfeClient
    (teamAccessAddOptions (data w)
       (ResourceData.GetString (data w) "access") tm ws) = Ok tmAccess →
  resourceTFETeamAccessCreate tfeClient w =
  resourceTFETeamAccessRead tfeClient
    {| data := ResourceData.SetId (data w) (ta_ID tmAccess);
       calls :=
         (calls w ++
          [CallWorkspacesReadByID
             (ResourceData.GetString (data w) "workspace_id");
           CallTeamsRead (ResourceData.GetString (data w) "team_id");
           CallTeamAccessAdd
             (teamAccessAddOptions (data w)
                (ResourceData.GetString (data w) "access") tm ws)])%list;
       logs :=
         (logs w ++
          ["[DEBUG] Give team " +:+ tm_Name tm +:+ " "
           +:+ ResourceData.GetString (data w) "access"
           +:+ " access to workspace: " +:+ ws_Name ws])%list |}.
Proof.
  intros Hws Htm Hadd. unfold resourceTFETeamAccessCreate. step_op.
  rewrite Hws. step_op. rewrite Htm. step_op. rewrite Hadd. step_op.
  rewrite <- !app_assoc. reflexivity.
Qed.

(** X16: a create of a team access whose workspace and team are found
    and whose grant the API accepts makes four requests in this order:
    the workspace, the team, the grant, the read of the new ID.  When
    the read answers, the function returns nil, the ID is the one the
    grant returned and access and permissions are those the read
    answered. *)
Theorem team_access_create_succeeds (tfeClient : Client) (w : World)
    (ws : Workspace) (tm : Team) (granted answered : TeamAccess) :
  Workspaces_ReadByID tfeClient
    (ResourceData.GetString (data w) "workspace_id") = Ok ws →
  Teams_Read tfeClient (ResourceData.GetString (data w) "team_id") = Ok tm →
  TeamAccess_Add tfeClient
    (teamAccessAddOptions (data w)
       (ResourceData.GetString (data w) "access") tm ws) = Ok granted →
  TeamAccess_Read tfeClient (ta_ID granted) = Ok answered →
  ∃ w' : World,
    resourceTFETeamAccessCreate tfeClient w = (Ok tt, w')
    ∧ ResourceData.Id (data w') = ta_ID granted
    ∧ ResourceData.GetString (data w') "access" = ta_Access answered
    ∧ ResourceData.attrs (data w') !! "permissions"
      = Some (VList (permissionsOf answered))
    ∧ calls w' =
      (calls w ++
       [CallWorkspacesReadByID
          (ResourceData.GetString (data w) "workspace_id");
        CallTeamsRead (ResourceData.GetString (data w) "team_id");
        CallTeamAccessAdd
          (teamAccessAddOptions (data w)
             (ResourceData.GetString (data w) "access") tm ws);
        CallTeamAccessRead (ta_ID granted)])%list.
Proof.
  intros Hws Htm Hadd Hr.
  rewrite (team_access_create_then_read tfeClient w ws tm granted
             Hws Htm Hadd).
  match goal with
  | |- context [resourceTFETeamAccessRead tfeClient ?w1] =>
      rewrite (team_access_read_ok tfeClient w1 answered Hr)
  end.
  eexists. split; [reflexivity|].
  cbn [data calls ResourceData.attrs ResourceData.id ResourceData.SetId
       ResourceData.Id].
  split; [reflexivity|].
  unfold ResourceData.GetString.
  rewrite !lookupAttr_top by reflexivity.
  cbn [ResourceData.attrs].
  split; [by simplify_map_eq|]. split; [by simplify_map_eq|].
  rewrite <- app_assoc. reflexivity.
Qed.

Lemma team_access_create_succeeds_witness :
  ∃ w' : World,
    resourceTFETeamAccessCreate (sampleClient (λ _, false) serverError)
      world_team_access = (Ok tt, w')
    ∧ ResourceData.Id (data w') = "tws-9"
    ∧ ResourceData.GetString (data w') "access" = "read"
    ∧ length (calls w') = 4.
Proof.
  destruct (team_access_create_succeeds
              (sampleClient (λ _, false) serverError) world_team_access
              sampleWorkspace sampleTeam sampleTeamAccess sampleTeamAccess
              eq_refl eq_refl eq_refl eq_refl)
    as (w' & Hrun & Hid & Haccess & _ & Hcalls).
  exists w'. split; [exact Hrun|]. split; [exact Hid|].
  split; [exact Haccess|]. rewrite Hcalls. reflexivity.
Defined.

(** X17: when the API accepts the grant but no longer knows the team
    access at the read that follows, the create still returns nil: the
    resource data is left without an ID and with the attributes as
    configured. *)
Theorem team_access_create_then_gone (tfeClient : Client) (w : World)
    (ws : Workspace) (tm : Team) (granted : TeamAccess) :
  Workspaces_ReadByID tfeClient
    (ResourceData.GetString (data w) "workspace_id") = Ok ws →
  Teams_Read tfeClient (ResourceData.GetString (data w) "team_id") = Ok tm →
  TeamAccess_Add tfeClient
    (teamAccessAddOptions (data w)
       (ResourceData.GetString (data w) "access") tm ws) = Ok granted →
  TeamAccess_Read tfeClient (ta_ID granted) = Err ErrResourceNotFound →
  ∃ w' : World,
    resourceTFETeamAccessCreate tfeClient w = (Ok tt, w')
    ∧ ResourceData.Id (data w') = ""
    ∧ ResourceData.attrs (data w') = ResourceData.attrs (data w).
Proof.
  intros Hws Htm Hadd Hr.
  rewrite (team_access_create_then_read tfeClient w ws tm granted
             Hws Htm Hadd).
  rewrite team_access_read_gone by exact Hr.
  eexists. split; [reflexivity|]. split; reflexivity.
Qed.

Lemma team_access_create_then_gone_witness :
  ∃ w' : World,
    resourceTFETeamAccessCreate
      (sampleClient onlyTeamAccessRead ErrResourceNotFound)
      world_team_access = (Ok tt, w')
    ∧ ResourceData.Id (data w') = ""
    ∧ ResourceData.attrs (data w')
      = ResourceData.attrs (data world_team_access).
Proof.
  apply (team_access_create_then_gone
           (sampleClient onlyTeamAccessRead ErrResourceNotFound)
           world_team_access sampleWorkspace sampleTeam sampleTeamAccess);
    reflexivity.
Defined.

(** ** Team access: updating *)

(** X18: a successful update of a team access makes the one update
    request and writes the permissions block from its answer, and
    nothing else: the access attribute is not written from the answer,
    no read follows, and the ID is as it was. *)
Theorem team_access_update_succeeds (tfeClient : Client) (w : World)
    (tmAccess : TeamAccess) :
  TeamAccess_Update tfeClient (ResourceData.Id (data w))
    (teamAccessUpdateOptions (data w)) = Ok tmAccess →
  ∃ w' : World,
    resourceTFETeamAccessUpdate tfeClient w = (Ok tt, w')
    ∧ ResourceData.attrs (data w') =
      <[ "permissions" := VList (permissionsOf tmAccess) ]>
        (ResourceData.attrs (data w))
    ∧ ResourceData.attrs (data w') !! "access"
      = ResourceData.attrs (data w) !! "access"
    ∧ ResourceData.Id (data w') = ResourceData.Id (data w)
    ∧ calls w' =
      (calls w ++
       [CallTeamAccessUpdate (ResourceData.Id (data w))
          (teamAccessUpdateOptions (data w))])%list.
Proof.
  intros Hu. unfold resourceTFETeamAccessUpdate. step_op. rewrite Hu.
  eexists. split; [reflexivity|].
  cbn [data calls ResourceData.attrs ResourceData.Set_ fst].
  split; [reflexivity|].
  split; [by rewrite lookup_insert_ne|].
  split; reflexivity.
Qed.

Lemma team_access_update_succeeds_witness :
  ∃ w' : World,
    resourceTFETeamAccessUpdate (sampleClient (λ _, false) serverError)
      world_team_access = (Ok tt, w')
    ∧ ResourceData.attrs (data w') !! "access" = Some (VString "write")
    ∧ length (calls w') = 1.
Proof.
  destruct (team_access_update_succeeds
              (sampleClient (λ _, false) serverError) world_team_access
              sampleTeamAccess eq_refl)
    as (w' & Hrun & _ & Haccess & _ & Hcalls).
  exists w'. split; [exact Hrun|].
  split; [rewrite Haccess; reflexivity|].
  rewrite Hcalls. reflexivity.
Defined.

Lemma HasChange_same (d : ResourceData.t) (key : string) :
  ResourceData.state d = ResourceData.attrs d →
  ResourceData.HasChange d key = false.
Proof.
  intros Hsame. unfold ResourceData.HasChange, DeepEqual. rewrite Hsame.
  rewrite bool_decide_eq_true_2 by reflexivity. reflexivity.
Qed.

(** X19: when the planned attributes are those of the prior state, the
    update request carries the access level and no permission at all. *)
Theorem update_options_without_change (d : ResourceData.t) :
  ResourceData.state d = ResourceData.attrs d →
  teamAccessUpdateOptions d =
  {| upd_Access := Some (ResourceData.GetString d "access");
     upd_Runs := None;
     upd_Variables := None;
     upd_StateVersions := None;
     upd_SentinelMocks := None;
     upd_WorkspaceLocking := None |}.
Proof.
  intros Hsame.
  unfold teamAccessUpdateOptions, changedAndSet, changedAndExists.
  rewrite !(HasChange_same d _ Hsame). reflexivity.
Qed.

Lemma update_options_without_change_witness :
  teamAccessUpdateOptions
    (ResourceData.mk "tws-1"
       (ResourceData.attrs (data world_custom_access))
       (ResourceData.attrs (data world_custom_access))) =
  {| upd_Access := Some "custom";
     upd_Runs := None;
     upd_Variables := None;
     upd_StateVersions := None;
     upd_SentinelMocks := None;
     upd_WorkspaceLocking := None |}.
Proof.
  apply (update_options_without_change
           (ResourceData.mk "tws-1"
              (ResourceData.attrs (data world_custom_access))
              (ResourceData.attrs (data world_custom_access)))).
  reflexivity.
Defined.

Lemma substring_all (s : string) :
  String.substring 0 (String.length s) s = s.
Proof.
  induction s as [|c s IH]; [reflexivity|].
  cbn [String.length String.substring]. f_equal. exact IH.
Qed.

Lemma substring_after_prefix (pre s : string) :
  String.substring (String.length pre)
    (String.length (pre +:+ s) - String.length pre) (pre +:+ s) = s.
Proof.
  induction pre as [|c pre IH].
  - change ("" +:+ s) with s. cbn [String.length].
    rewrite Nat.sub_0_r. apply substring_all.
  - change (String c pre +:+ s) with (String c (pre +:+ s)).
    cbn [String.length String.substring Nat.sub]. exact IH.
Qed.

(** X20: with a permissions block planned, the update request carries
    a string permission exactly when it changed and is not empty, and
    the workspace locking flag whenever it changed, a change to false
    included. *)
Theorem update_options_of_changes (d : ResourceData.t)
    (p : Permissions) (l : list Permissions) :
  ResourceData.attrs d !! "permissions" = Some (VList (p :: l)) →
  teamAccessUpdateOptions d =
  {| upd_Access := Some (ResourceData.GetString d "access");
     upd_Runs :=
       if ResourceData.HasChange d "permissions.0.runs" &&
          negb (runs p =? "")
       then Some (runs p) else None;
     upd_Variables :=
       if ResourceData.HasChange d "permissions.0.variables" &&
          negb (variables p =? "")
       then Some (variables p) else None;
     upd_StateVersions :=
       if ResourceData.HasChange d "permissions.0.state_versions" &&
          negb (state_versions p =? "")
       then Some (state_versions p) else None;
     upd_SentinelMocks :=
       if ResourceData.HasChange d "permissions.0.sentinel_mocks" &&
          negb (sentinel_mocks p =? "")
       then Some (sentinel_mocks p) else None;
     upd_WorkspaceLocking :=
       if ResourceData.HasChange d "permissions.0.workspace_locking"
       then Some (workspace_locking p) else None |}.
Proof.
  intros Hp.
  assert (Hfield :
            ∀ field : string,
              ResourceData.lookupAttr (ResourceData.attrs d)
                ("permissions.0." +:+ field) =
              match ResourceData.permissionsField p field with
              | VNil => None
              | v => Some v
              end).
  { intros field. unfold ResourceData.lookupAttr.
    replace (String.prefix "permissions.0." ("permissions.0." +:+ field))
      with true by (symmetry; apply prefix_app).
    rewrite Hp.
    change 14 with (String.length "permissions.0.").
    rewrite substring_after_prefix. reflexivity. }
  unfold teamAccessUpdateOptions, changedAndSet, changedAndExists,
    ResourceData.GetOk, ResourceData.GetOkExists.
  pose proof (Hfield "runs") as Hruns.
  pose proof (Hfield "variables") as Hvariables.
  pose proof (Hfield "state_versions") as Hstate.
  pose proof (Hfield "sentinel_mocks") as Hmocks.
  pose proof (Hfield "workspace_locking") as Hlocking.
  change ("permissions.0." +:+ "runs") with "permissions.0.runs" in Hruns.
  change ("permissions.0." +:+ "variables")
    with "permissions.0.variables" in Hvariables.
  change ("permissions.0." +:+ "state_versions")
    with "permissions.0.state_versions" in Hstate.
  change ("permissions.0." +:+ "sentinel_mocks")
    with "permissions.0.sentinel_mocks" in Hmocks.
  change ("permissions.0." +:+ "workspace_locking")
    with "permissions.0.workspace_locking" in Hlocking.
  rewrite Hruns, Hvariables, Hstate, Hmocks, Hlocking.
  cbn [ResourceData.permissionsField String.eqb Ascii.eqb Bool.eqb
       isZero negb fmap option_fmap option_map ResourceData.asString
       ResourceData.asBool].
  destruct (ResourceData.HasChange d "permissions.0.runs"),
    (ResourceData.HasChange d "permissions.0.variables"),
    (ResourceData.HasChange d "permissions.0.state_versions"),
    (ResourceData.HasChange d "permissions.0.sentinel_mocks"),
    (ResourceData.HasChange d "permissions.0.workspace_locking"),
    (runs p =? ""), (variables p =? ""), (state_versions p =? ""),
    (sentinel_mocks p =? ""); reflexivity.
Qed.

Lemma update_options_of_changes_witness :
  teamAccessUpdateOptions (data world_custom_access) =
  {| upd_Access := Some "custom";
     upd_Runs := Some "apply";
     upd_Variables := None;
     upd_StateVersions := None;
     upd_SentinelMocks := None;
     upd_WorkspaceLocking := Some false |}.
Proof.
  rewrite (update_options_of_changes (data world_custom_access)
             (mkPermissions "apply" "none" "" "" false) [] eq_refl).
  reflexivity.
Defined.

(** X21: the grant request of a create carries the access level, the
    team and the workspace; without a permissions block it carries no
    permission, and with one it carries the string permissions that are
    not empty and always the workspace locking flag, false included. *)
Theorem add_options_of_block (d : ResourceData.t) (access : string)
    (tm : Team) (ws : Workspace) :
  (ResourceData.attrs d !! "permissions" = None →
   teamAccessAddOptions d access tm ws =
   {| add_Access := Some access;
      add_Runs := None; add_Variables := None;
      add_StateVersions := None; add_SentinelMocks := None;
      add_WorkspaceLocking := None;
      add_Team := tm; add_Workspace := ws |})
  ∧ (∀ (p : Permissions) (l : list Permissions),
       ResourceData.attrs d !! "permissions" = Some (VList (p :: l)) →
       teamAccessAddOptions d access tm ws =
       {| add_Access := Some access;
          add_Runs := if runs p =? "" then None else Some (runs p);
          add_Variables :=
            if variables p =? "" then None else Some (variables p);
          add_StateVersions :=
            if state_versions p =? "" then None
            else Some (state_versions p);
          add_SentinelMocks :=
            if sentinel_mocks p =? "" then None
            else Some (sentinel_mocks p);
          add_WorkspaceLocking := Some (workspace_locking p);
          add_Team := tm; add_Workspace := ws |}).
Proof.
  split.
  - intros Hp. unfold teamAccessAddOptions, ResourceData.GetOk.
    rewrite lookupAttr_top by reflexivity. rewrite Hp. reflexivity.
  - intros p l Hp. unfold teamAccessAddOptions, ResourceData.GetOk.
    rewrite lookupAttr_top by reflexivity. rewrite Hp.
    cbn [isZero negb].
    rewrite bool_decide_eq_false_2 by discriminate. cbn [negb].
    destruct (runs p =? ""), (variables p =? ""), (state_versions p =? ""),
      (sentinel_mocks p =? ""); reflexivity.
Qed.

Lemma add_options_of_block_witness :
  teamAccessAddOptions (data world_team_access) "write"
    sampleTeam sampleWorkspace =
  {| add_Access := Some "write";
     add_Runs := None; add_Variables := None;
     add_StateVersions := None; add_SentinelMocks := None;
     add_WorkspaceLocking := None;
     add_Team := sampleTeam; add_Workspace := sampleWorkspace |}
  ∧ teamAccessAddOptions (data world_custom_access) "custom"
      sampleTeam sampleWorkspace =
    {| add_Access := Some "custom";
       add_Runs := Some "apply"; add_Variables := Some "none";
       add_StateVersions := None; add_SentinelMocks := None;
       add_WorkspaceLocking := Some false;
       add_Team := sampleTeam; add_Workspace := sampleWorkspace |}.
Proof.
  destruct (add_options_of_block (data world_team_access) "write"
              sampleTeam sampleWorkspace) as [Hnone _].
  destruct (add_options_of_block (data world_custom_access) "custom"
              sampleTeam sampleWorkspace) as [_ Hblock].
  split.
  - exact (Hnone eq_refl).
  - exact (Hblock (mkPermissions "apply" "none" "" "" false) [] eq_refl).
Defined.

(** ** Deleting and reading, whatever the API answers *)

(** X22: a delete of either resource makes exactly one request, the
    removal of the resource's ID, never changes the resource data, and
    returns nil exactly when the API answers nil or not-found. *)
Theorem delete_one_request (tfeClient : Client) (w : World) :
  (data (resourceTFETeamAccessDelete tfeClient w).2 = data w
   ∧ calls (resourceTFETeamAccessDelete tfeClient w).2 =
     (calls w ++ [CallTeamAccessRemove (ResourceData.Id (data w))])%list
   ∧ ((resourceTFETeamAccessDelete tfeClient w).1 = Ok tt ↔
      TeamAccess_Remove tfeClient (ResourceData.Id (data w)) = None
      ∨ TeamAccess_Remove tfeClient (ResourceData.Id (data w))
        = Some ErrResourceNotFound))
  ∧ (data (resourceTFENotificationConfigurationDelete tfeClient w).2
     = data w
     ∧ calls (resourceTFENotificationConfigurationDelete tfeClient w).2 =
       (calls w ++
        [CallNotificationConfigurationsDelete
           (ResourceData.Id (data w))])%list
     ∧ ((resourceTFENotificationConfigurationDelete tfeClient w).1 = Ok tt ↔
        NotificationConfigurations_Delete tfeClient
          (ResourceData.Id (data w)) = None
        ∨ NotificationConfigurations_Delete tfeClient
            (ResourceData.Id (data w)) = Some ErrResourceNotFound)).
Proof.
  split.
  - unfold resourceTFETeamAccessDelete. step_op.
    destruct (TeamAccess_Remove tfeClient (ResourceData.Id (data w)))
      as [[|msg]|]; cbn [isErrResourceNotFound]; step_op;
      (split; [reflexivity|]; split; [reflexivity|]).
    + split; [right; reflexivity|reflexivity].
    + split; [discriminate|intros [H|H]; discriminate H].
    + split; [left; reflexivity|reflexivity].
  - unfold resourceTFENotificationConfigurationDelete. step_op.
    destruct (NotificationConfigurations_Delete tfeClient
                (ResourceData.Id (data w)))
      as [[|msg]|]; cbn [isErrResourceNotFound]; step_op;
      (split; [reflexivity|]; split; [reflexivity|]).
    + split; [right; reflexivity|reflexivity].
    + split; [discriminate|intros [H|H]; discriminate H].
    + split; [left; reflexivity|reflexivity].
Qed.

Lemma delete_one_request_witness :
  (resourceTFETeamAccessDelete
     (sampleClient everyRequest ErrResourceNotFound) world_team_access).1
  = Ok tt
  ∧ (resourceTFENotificationConfigurationDelete
       (sampleClient (λ _, false) serverError) world_notification).1
    = Ok tt.
Proof.
  destruct (delete_one_request
              (sampleClient everyRequest ErrResourceNotFound)
              world_team_access) as [(_ & _ & Hta) _].
  destruct (delete_one_request
              (sampleClient (λ _, false) serverError)
              world_notification) as [_ (_ & _ & Hnc)].
  split.
  - apply Hta. right. reflexivity.
  - apply Hnc. left. reflexivity.
Defined.

(** X23: a read of either resource makes exactly one request, the read
    of the resource's ID, never changes the prior state, and returns an
    error exactly when the API fails with something other than
    not-found. *)
Theorem read_one_request (tfeClient : Client) (w : World) :
  (calls (resourceTFETeamAccessRead tfeClient w).2 =
   (calls w ++ [CallTeamAccessRead (ResourceData.Id (data w))])%list
   ∧ ResourceData.state (data (resourceTFETeamAccessRead tfeClient w).2)
     = ResourceData.state (data w)
   ∧ ((resourceTFETeamAccessRead tfeClient w).1 ≠ Ok tt ↔
      ∃ err : error,
        TeamAccess_Read tfeClient (ResourceData.Id (data w)) = Err err
        ∧ err ≠ ErrResourceNotFound))
  ∧ (calls (resourceTFENotificationConfigurationRead tfeClient w).2 =
     (calls w ++
      [CallNotificationConfigurationsRead (ResourceData.Id (data w))])%list
     ∧ ResourceData.state
         (data (resourceTFENotificationConfigurationRead tfeClient w).2)
       = ResourceData.state (data w)
     ∧ ((resourceTFENotificationConfigurationRead tfeClient w).1 ≠ Ok tt ↔
        ∃ err : error,
          NotificationConfigurations_Read tfeClient
            (ResourceData.Id (data w)) = Err err
          ∧ err ≠ ErrResourceNotFound)).
Proof.
  split.
  - destruct (TeamAccess_Read tfeClient (ResourceData.Id (data w)))
      as [tmAccess|[|msg]] eqn:Hr.
    + rewrite (team_access_read_ok tfeClient w tmAccess Hr).
      split; [reflexivity|]. split; [reflexivity|].
      split; [intros Hne; exfalso; apply Hne; reflexivity|].
      intros (err & Herr & _). discriminate Herr.
    + rewrite (team_access_read_gone tfeClient w Hr).
      split; [reflexivity|]. split; [reflexivity|].
      split; [intros Hne; exfalso; apply Hne; reflexivity|].
      intros (err & Herr & Hne). injection Herr as <-. congruence.
    + unfold resourceTFETeamAccessRead. step_op. rewrite Hr.
      split; [reflexivity|]. split; [reflexivity|].
      split; [|discriminate].
      intros _. exists (errorString msg). split; [reflexivity|discriminate].
  - destruct (NotificationConfigurations_Read tfeClient
                (ResourceData.Id (data w)))
      as [nc|[|msg]] eqn:Hr.
    + rewrite (notification_read_ok tfeClient w nc Hr).
      split; [reflexivity|]. split; [reflexivity|].
      split; [intros Hne; exfalso; apply Hne; reflexivity|].
      intros (err & Herr & _). discriminate Herr.
    + rewrite (notification_read_gone tfeClient w Hr).
      split; [reflexivity|]. split; [reflexivity|].
      split; [intros Hne; exfalso; apply Hne; reflexivity|].
      intros (err & Herr & Hne). injection Herr as <-. congruence.
    + unfold resourceTFENotificationConfigurationRead. step_op. rewrite Hr.
      split; [reflexivity|]. split; [reflexivity|].
      split; [|discriminate].
      intros _. exists (errorString msg). split; [reflexivity|discriminate].
Qed.

Lemma read_one_request_witness :
  (resourceTFETeamAccessRead
     (sampleClient everyRequest serverError) world_team_access).1 ≠ Ok tt
  ∧ (resourceTFENotificationConfigurationRead
       (sampleClient everyRequest serverError) world_notification).1
    ≠ Ok tt.
Proof.
  destruct (read_one_request (sampleClient everyRequest serverError)
              world_team_access) as [(_ & _ & Hta) _].
  destruct (read_one_request (sampleClient everyRequest serverError)
              world_notification) as [_ (_ & _ & Hnc)].
  split.
  - apply Hta. exists serverError. split; [reflexivity|discriminate].
  - apply Hnc. exists serverError. split; [reflexivity|discriminate].
Defined.
